(** * ThesisFormatter: the heading classifier, the format applicator, the
    compliance checker and the configuration loader of [format_thesis.py],
    embedded in Rocq.

    Definitions come first: Python values (strings, exceptions), the regular
    expressions of the numbering rules, the part of the WordprocessingML
    tree the program touches, [detect_level], the numbers and records of a
    template, [load_config], [apply_run_format], [apply_para_format],
    [check_format] and [convert_document], then sample inputs and the words
    the properties are stated in. The theorems follow. *)

From Stdlib Require Import Ascii String NArith ZArith Floats.
From Stdlib Require Import DecimalString DecimalZ DecimalPos Lia.
From stdpp Require Import gmap strings list.

Open Scope N_scope.

(** ** Python values *)

(** A Python [str] is a sequence of code points; [len] counts code points. *)
Definition pystr := list N.

(** Literals are written as Rocq strings, which hold the UTF-8 bytes of the
    text; [u] decodes them into code points. *)
Fixpoint utf8 (bs : list N) : pystr :=
  match bs with
  | [] => []
  | b0 :: r0 =>
    if b0 <? 128 then b0 :: utf8 r0
    else if b0 <? 224 then
      match r0 with
      | b1 :: r1 => (b0 mod 32 * 64 + b1 mod 64) :: utf8 r1
      | _ => []
      end
    else if b0 <? 240 then
      match r0 with
      | b1 :: b2 :: r2 =>
        (b0 mod 16 * 4096 + b1 mod 64 * 64 + b2 mod 64) :: utf8 r2
      | _ => []
      end
    else
      match r0 with
      | b1 :: b2 :: b3 :: r3 =>
        (b0 mod 8 * 262144 + b1 mod 64 * 4096 + b2 mod 64 * 64 + b3 mod 64)
          :: utf8 r3
      | _ => []
      end
  end.

Definition u (s : string) : pystr :=
  utf8 (N_of_ascii <$> list_ascii_of_string s).

(** The single character of a one-character literal. *)
Definition ch (s : string) : N := default 0 (head (u s)).

Definition str_eqb (a b : pystr) : bool := bool_decide (a = b).

(** [str.isspace] on one character (CPython's [_PyUnicode_IsWhitespace]);
    the class [\s] of a [str] pattern is the same set. *)
Definition isspace (c : N) : bool :=
  ((9 <=? c) && (c <=? 13)) || ((28 <=? c) && (c <=? 31)) || (c =? 32)
  || (c =? 133) || (c =? 160) || (c =? 5760)
  || ((8192 <=? c) && (c <=? 8202)) || (c =? 8232) || (c =? 8233)
  || (c =? 8239) || (c =? 8287) || (c =? 12288).

Fixpoint lstrip (s : pystr) : pystr :=
  match s with
  | c :: s' => if isspace c then lstrip s' else s
  | [] => []
  end.

Definition rstrip (s : pystr) : pystr := rev (lstrip (rev s)).

(** [s.strip()] *)
Definition strip (s : pystr) : pystr := rstrip (lstrip s).

(** Truth value of a string: non-empty. *)
Definition truthy (s : pystr) : bool :=
  match s with [] => false | _ => true end.

(** Exceptions, and results of calls that can raise. *)
Inductive exn := IndexError | KeyError | ValueError | OverflowError | OSError.

Inductive result (A : Type) :=
  | Ok (a : A)
  | Raise (e : exn).
Arguments Ok {A} a.
Arguments Raise {A} e.

#[global] Instance result_ret : MRet result := fun _ a => Ok a.
#[global] Instance result_bind : MBind result := fun _ _ f m =>
  match m with
  | Ok a => f a
  | Raise e => Raise e
  end.

(** [l[i]] for a non-negative index. *)
Definition index {A} (l : list A) (i : nat) : result A :=
  match l !! i with
  | Some x => Ok x
  | None => Raise IndexError
  end.

(** ** Regular expressions

    The fragment of [re] syntax that the three numbering patterns use, with a
    backtracking matcher in continuation-passing style: a pattern matches
    when some way of running it reaches the continuation. *)
Module Re.

(** An item of a bracketed class. *)
Inductive item :=
  | One (c : N)             (* a character *)
  | Range (lo hi : N)       (* lo-hi *)
  | Space.                  (* \s *)

Definition in_item (c : N) (i : item) : bool :=
  match i with
  | One d => c =? d
  | Range lo hi => (lo <=? c) && (c <=? hi)
  | Space => isspace c
  end.

Definition in_class (cls : list item) (c : N) : bool :=
  existsb (in_item c) cls.

Inductive regex :=
  | Bol                       (* ^ *)
  | Chr (c : N)               (* a literal character *)
  | Set_ (cls : list item)    (* [...] *)
  | Plus (cls : list item)    (* [...]+ , greedy *)
  | Cat (a b : regex)
  | Alt (a b : regex)         (* a|b *)
  | NotAhead (a : regex).     (* (?!a) *)

Definition cont := nat -> pystr -> bool.

(** The rest of a greedy repetition: zero or more characters of the class,
    the longest run first, then the continuation. *)
Fixpoint more (cls : list item) (k : cont) (pos : nat) (s : pystr) : bool :=
  match s with
  | c :: s' =>
    if in_class cls c then more cls k (S pos) s' || k pos s else k pos s
  | [] => k pos []
  end.

Fixpoint run (r : regex) (k : cont) (pos : nat) (s : pystr) : bool :=
  match r with
  | Bol => (pos =? 0)%nat && k pos s
  | Chr d =>
    match s with
    | c :: s' => (c =? d) && k (S pos) s'
    | [] => false
    end
  | Set_ cls =>
    match s with
    | c :: s' => in_class cls c && k (S pos) s'
    | [] => false
    end
  | Plus cls =>
    match s with
    | c :: s' => in_class cls c && more cls k (S pos) s'
    | [] => false
    end
  | Cat a b => run a (run b k) pos s
  | Alt a b => run a k pos s || run b k pos s
  | NotAhead a => negb (run a (fun _ _ => true) pos s) && k pos s
  end.

(** [pattern.match(s)] as a truth value: a match starting at position 0. *)
Definition match_ (r : regex) (s : pystr) : bool :=
  run r (fun _ _ => true) 0%nat s.

(** Several patterns in a row. *)
Fixpoint seq (r : regex) (rs : list regex) : regex :=
  match rs with
  | [] => r
  | r' :: rs' => Cat r (seq r' rs')
  end.

End Re.

(** ** The document tree

    The part of a [.docx] body that the program reads or writes, as
    [Document(path)] has loaded it; opening and saving the file are not
    modelled. An element that the program only addresses through its
    attributes is its attribute dictionary. [w:sz] and [w:szCs] hold their
    [w:val] at its schema type, an unsigned number of half-points: the
    number that [int] reads from the attribute and the one whose [str] is
    written to it. A paragraph is its properties and its runs; its text is
    the text of its runs. *)

Abbreviation attrs := (gmap string pystr).

Record CT_HpsMeasure := { hps_val : option N }.

Record CT_RPr := {
  rFonts : option attrs;          (* w:rFonts *)
  sz     : option CT_HpsMeasure;  (* w:sz *)
  szCs   : option CT_HpsMeasure;  (* w:szCs *)
  b      : option attrs           (* w:b *)
}.

Record Run := {
  rPr    : option CT_RPr;         (* w:rPr *)
  r_text : pystr                  (* run.text *)
}.

Record CT_PPr := {
  spacing_el : option attrs;      (* w:spacing *)
  ind        : option attrs       (* w:ind *)
}.

Record Paragraph := {
  pPr  : option CT_PPr;           (* w:pPr *)
  runs : list Run                 (* para.runs *)
}.

(** [para.text]: the text of the runs, concatenated. *)
Definition text (para : Paragraph) : pystr := concat (r_text <$> runs para).

(** [doc.paragraphs] *)
Abbreviation Document := (list Paragraph).

Inductive level := main_title | heading1 | heading2 | heading3 | body.

#[global] Instance level_eq_dec : EqDecision level.
Proof. solve_decision. Defined.

(** ** Heading detection *)

Definition digits : list Re.item :=
  [Re.Range (ch "0") (ch "9"); Re.Range (ch "０") (ch "９")].
Definition dots : list Re.item := [Re.One (ch "."); Re.One (ch "。")].
Definition numerals : list Re.item :=
  Re.One <$> u "一二三四五六七八九十百".

Definition RE_HEADING3 : Re.regex :=
  Re.seq Re.Bol [Re.Plus digits; Re.Set_ dots; Re.Plus digits;
                 Re.Set_ dots; Re.Plus digits].

Definition RE_HEADING2 : Re.regex :=
  Re.seq Re.Bol [Re.Plus digits; Re.Set_ dots; Re.Plus digits;
                 Re.NotAhead (Re.Cat (Re.Set_ dots) (Re.Set_ digits))].

Definition RE_HEADING1 : Re.regex :=
  Re.Cat Re.Bol
    (Re.Alt
       (Re.Cat (Re.Plus digits)
          (Re.Set_ [Re.Space; Re.One (ch "　"); Re.One (ch ".");
                    Re.One (ch "。"); Re.One (ch "、")]))
       (Re.Alt
          (Re.Cat (Re.Plus numerals)
             (Re.Set_ [Re.One (ch "、"); Re.One (ch ".")]))
          (Re.seq (Re.Chr (ch "第"))
                  [Re.Plus (numerals ++ [Re.Range (ch "0") (ch "9")]);
                   Re.Set_ (Re.One <$> u "章节部篇")]))).

Definition HEADING_MAX_LEN : nat := 40.
Definition MAIN_TITLE_MAX_LEN : nat := 30.

Definition get_run_size (run : Run) : N :=
  match rPr run with
  | Some rPr =>
    match sz rPr with
    | Some sz => default 0 (hps_val sz)
    | None => 0
    end
  | None => 0
  end.

Definition para_max_size (para : Paragraph) : N :=
  match get_run_size <$> runs para with
  | [] => 0
  | s :: sizes => foldl N.max s sizes
  end.

(** The test that [para_is_bold] makes on one run. *)
Definition run_is_bold (run : Run) : bool :=
  match rPr run with
  | Some rPr =>
    match b rPr with
    | Some b => negb (str_eqb (default (u "1") (b !! "w:val"%string)) (u "0"))
    | None => false
    end
  | None => false
  end.

Definition para_is_bold (para : Paragraph) : bool :=
  existsb run_is_bold (runs para).

Definition detect_level (para : Paragraph) (all_sizes : list N) (idx : nat)
  : result level :=
  let text := strip (text para) in
  if negb (truthy text) || (HEADING_MAX_LEN <? length text)%nat then Ok body
  else if Re.match_ RE_HEADING3 text then Ok heading3
  else if Re.match_ RE_HEADING2 text then Ok heading2
  else if Re.match_ RE_HEADING1 text then Ok heading1
  else if (length text <=? MAIN_TITLE_MAX_LEN)%nat then
    let my_size := para_max_size para in
    prev_size ← (if (0 <? idx)%nat then index all_sizes (idx - 1) else Ok 0);
    next_size ← (if (Z.of_nat idx <? Z.of_nat (length all_sizes) - 1)%Z
                 then index all_sizes (idx + 1) else Ok 0);
    if para_is_bold para
       || ((0 <? my_size) && (prev_size <? my_size) && (next_size <? my_size))
    then Ok main_title
    else Ok body
  else Ok body.

(** ** Numbers of a template

    A number read from JSON is an [int] or a [float]. *)
Inductive pynum :=
  | PInt (z : Z)
  | PFloat (f : float).

(** [float(z)]: the nearest double, [OverflowError] beyond the range. *)
Definition float_of_int (z : Z) : result float :=
  let f := SF2Prim (binary_normalize prec emax z 0 false) in
  if is_infinity f then Raise OverflowError else Ok f.

(** [a * b] *)
Definition num_mul (a b : pynum) : result pynum :=
  match a, b with
  | PInt x, PInt y => Ok (PInt (x * y))
  | PInt x, PFloat g => f ← float_of_int x; Ok (PFloat (f * g))
  | PFloat f, PInt y => g ← float_of_int y; Ok (PFloat (f * g))
  | PFloat f, PFloat g => Ok (PFloat (f * g))
  end.

(** [int(a)]: a float is truncated toward zero. *)
Definition py_int (a : pynum) : result Z :=
  match a with
  | PInt z => Ok z
  | PFloat f =>
    match Prim2SF f with
    | S754_zero _ => Ok 0%Z
    | S754_infinity _ => Raise OverflowError
    | S754_nan => Raise ValueError
    | S754_finite s m e =>
      let q := if (0 <=? e)%Z then (Z.pos m * 2 ^ e)%Z
               else (Z.pos m / 2 ^ (- e))%Z in
      Ok (if s then (- q)%Z else q)
    end
  end.

(** [a == b] on numbers, for an [int] that a double holds exactly. *)
Definition num_eqb (a b : pynum) : bool :=
  match a, b with
  | PInt x, PInt y => (x =? y)%Z
  | PInt x, PFloat g =>
    match float_of_int x with Ok f => PrimFloat.eqb f g | Raise _ => false end
  | PFloat f, PInt y =>
    match float_of_int y with Ok g => PrimFloat.eqb f g | Raise _ => false end
  | PFloat f, PFloat g => PrimFloat.eqb f g
  end.

(** [str(z)] of an [int]: its decimal digits. *)
Definition py_str (z : Z) : pystr :=
  N_of_ascii <$> list_ascii_of_string (NilZero.string_of_int (Z.to_int z)).

(** ** Templates and the configuration file *)

Record Template := {
  chinese_font      : pystr;
  western_font      : pystr;
  sizes             : level -> N;                       (* half-points *)
  line_spacing      : pynum;
  spacing           : level -> option (pynum * pynum);  (* points *)
  first_line_indent : bool
}.

Record Config := { templates : list (pystr * Template) }.

Definition DEFAULT_CONFIG : Config := {|
  templates := [
    (u "通用模板", {|
       chinese_font := u "宋体";
       western_font := u "Times New Roman";
       sizes := fun l =>
         match l with
         | main_title => 32 | heading1 => 30 | heading2 => 28
         | heading3 => 24 | body => 21
         end;
       line_spacing := PFloat 1.5;
       spacing := fun l =>
         Some match l with
         | main_title => (PInt 24, PInt 12) | heading1 => (PInt 24, PInt 6)
         | heading2 => (PInt 18, PInt 6) | heading3 => (PInt 12, PInt 6)
         | body => (PInt 0, PInt 0)
         end;
       first_line_indent := true |});
    (u "学术期刊投稿", {|
       chinese_font := u "宋体";
       western_font := u "Times New Roman";
       sizes := fun l =>
         match l with
         | main_title => 32 | heading1 => 28 | heading2 => 26
         | heading3 => 24 | body => 24
         end;
       line_spacing := PFloat 2.0;
       spacing := fun l =>
         Some match l with
         | main_title => (PInt 12, PInt 12) | heading1 => (PInt 12, PInt 6)
         | heading2 => (PInt 6, PInt 6) | heading3 => (PInt 6, PInt 3)
         | body => (PInt 0, PInt 0)
         end;
       first_line_indent := true |})
  ] |}.

(** The file [config.json] as [load_config] can find it, and whether it can
    be opened for writing. *)
Inductive config_file :=
  | Missing                 (* os.path.exists is false *)
  | Unreadable              (* open raises *)
  | Corrupt                 (* json.load raises *)
  | Holds (c : Config).     (* json.load returns c *)

Record World := {
  CONFIG_FILE : config_file;
  writable    : bool
}.

Definition save_config (config : Config) (w : World) : result unit * World :=
  if writable w
  then (Ok (), {| CONFIG_FILE := Holds config; writable := writable w |})
  else (Raise OSError, w).

Definition load_config (w : World) : result Config * World :=
  let fallback :=
    match save_config DEFAULT_CONFIG w with
    | (Ok _, w') => (Ok DEFAULT_CONFIG, w')
    | (Raise e, w') => (Raise e, w')
    end in
  match CONFIG_FILE w with
  | Missing => fallback
  | Holds c => (Ok c, w)
  | Unreadable | Corrupt => fallback      (* except Exception: pass *)
  end.

(** ** Applying a format *)

(** [elem.set(qn("w:val"), str(size))] on a [w:sz] or [w:szCs] element. *)
Definition set_val (elem : CT_HpsMeasure) (size : N) : CT_HpsMeasure :=
  {| hps_val := Some size |}.

(** [OxmlElement(tag)] with the name that [qn] returned. [OxmlElement] takes
    a prefixed name such as ["w:rPr"], splits it at the colon and looks the
    first part up among the namespace prefixes; of the name in Clark
    notation, [{http://...}sz], the first part is ["{http"], which is no
    prefix, and the call raises [KeyError]. *)
Definition OxmlElement_of_qn : result CT_HpsMeasure := Raise KeyError.

(** One turn of the loop over [w:sz] and [w:szCs]: the element found, or a new
    one, with its [w:val] set. *)
Definition set_size (found : option CT_HpsMeasure) (size : N)
  : result CT_HpsMeasure :=
  elem ← match found with
         | Some elem => Ok elem
         | None => OxmlElement_of_qn
         end;
  Ok (set_val elem size).

Definition apply_run_format (run : Run) (size_half_pt : N)
    (chinese_font western_font : pystr) : result Run :=
  let rPr0 := default {| rFonts := None; sz := None; szCs := None; b := None |}
                      (rPr run) in
  let rFonts0 := default ∅ (rFonts rPr0) in
  let rFonts1 := <["w:ascii"%string    := western_font]> rFonts0 in
  let rFonts2 := <["w:hAnsi"%string    := western_font]> rFonts1 in
  let rFonts3 := <["w:eastAsia"%string := chinese_font]> rFonts2 in
  let rFonts4 := <["w:cs"%string       := western_font]> rFonts3 in
  sz' ← set_size (sz rPr0) size_half_pt;
  szCs' ← set_size (szCs rPr0) size_half_pt;
  Ok {| rPr := Some {| rFonts := Some rFonts4;
                       sz     := Some sz';
                       szCs   := Some szCs';
                       b      := b rPr0 |};
        r_text := r_text run |}.

(** [for run in runs: f(run)], stopping at the first exception. *)
Fixpoint for_each_run (f : Run -> result Run) (runs : list Run)
  : result (list Run) :=
  match runs with
  | [] => Ok []
  | run :: rest =>
    run' ← f run;
    rest' ← for_each_run f rest;
    Ok (run' :: rest')
  end.

Definition apply_para_format (para : Paragraph) (level : level)
    (template : Template) : result Paragraph :=
  let size_half_pt := sizes template level in
  let spacing_cfg  := spacing template in
  let line_spacing := line_spacing template in
  let do_indent    := first_line_indent template in
  let pPr0 := default {| spacing_el := None; ind := None |} (pPr para) in
  (* spacing before and after, line spacing *)
  let sp0 := default ∅ (spacing_el pPr0) in
  let '(before_pt, after_pt) := default (PInt 0, PInt 0) (spacing_cfg level) in
  before ← num_mul before_pt (PInt 20) ≫= py_int;
  let sp1 := <["w:before"%string := py_str before]> sp0 in
  after ← num_mul after_pt (PInt 20) ≫= py_int;
  let sp2 := <["w:after"%string := py_str after]> sp1 in
  let multiplier :=
    if decide (level = body) then line_spacing else PFloat 1.0 in
  line ← num_mul (PInt 240) multiplier ≫= py_int;
  let sp3 := <["w:line"%string := py_str line]> sp2 in
  let sp4 := <["w:lineRule"%string := u "auto"]> sp3 in
  (* first-line indent *)
  let ind0 := default ∅ (ind pPr0) in
  let ind1 :=
    if do_indent && bool_decide (level = body) then
      let indent_twips := size_half_pt * 20 in
      <["w:firstLine"%string := py_str (Z.of_N indent_twips)]> ind0
    else
      delete "w:firstLineChars"%string (delete "w:firstLine"%string ind0) in
  Ok {| pPr := Some {| spacing_el := Some sp4; ind := Some ind1 |};
        runs := runs para |}.

(** ** Checking a document *)

(** One problem description of a checked paragraph; the two sizes are the
    ones that the message prints, halved, as points. *)
Inductive problem :=
  | SizeMismatch (target_size current : N)   (* 字号应为 ..pt，当前为 ..pt *)
  | MissingIndent.                           (* 正文缺少首行缩进 *)

Record Issue := {
  i_level  : level;
  i_text   : pystr;
  i_issues : list problem
}.

(** The loop over the runs of one paragraph, with its [break]. *)
Fixpoint check_sizes (runs : list Run) (target_size : N) : list problem :=
  match runs with
  | [] => []
  | run :: runs' =>
    let current := get_run_size run in
    if negb (current =? 0) && negb (current =? target_size)
    then [SizeMismatch target_size current]
    else check_sizes runs' target_size
  end.

Definition check_indent (para : Paragraph) : list problem :=
  let has_indent :=
    match pPr para with
    | Some pPr =>
      match ind pPr with
      | Some ind => truthy (default [] (ind !! "w:firstLine"%string))
      | None => false
      end
    | None => false
    end in
  if negb has_indent then [MissingIndent] else [].

Definition is_nil {A} (l : list A) : bool :=
  match l with [] => true | _ => false end.

(** Whether the loops skip a paragraph:
    [not para.text.strip() or not para.runs]. *)
Definition skipped (para : Paragraph) : bool :=
  negb (truthy (strip (text para))) || is_nil (runs para).

(** The body of the loop of [check_format] for paragraph [i]: the entry it
    appends to [issues], if any. *)
Definition check_paragraph (template : Template) (all_sizes : list N)
    (i : nat) (para : Paragraph) : result (option Issue) :=
  if skipped para then Ok None
  else
    level ← detect_level para all_sizes i;
    let target_size := sizes template level in
    let para_issues :=
      check_sizes (runs para) target_size
      ++ (if bool_decide (level = body) && first_line_indent template
          then check_indent para else []) in
    Ok (if is_nil para_issues then None
        else Some {| i_level := level;
                     i_text := take 40 (strip (text para));
                     i_issues := para_issues |}).

Fixpoint check_loop (template : Template) (all_sizes : list N) (i : nat)
    (paragraphs : list Paragraph) : result (list Issue) :=
  match paragraphs with
  | [] => Ok []
  | para :: rest =>
    entry ← check_paragraph template all_sizes i para;
    issues ← check_loop template all_sizes (S i) rest;
    Ok (match entry with
        | Some issue => issue :: issues
        | None => issues
        end)
  end.

Definition check_format (doc : Document) (template : Template)
  : result (list Issue) :=
  let paragraphs := doc in
  let all_sizes := para_max_size <$> paragraphs in
  check_loop template all_sizes 0 paragraphs.

(** ** Converting a document *)

(** A call of [log_fn]: one per processed paragraph, with its level and the
    preview of its text, and the closing one with the count. *)
Inductive log_line :=
  | Processed (l : level) (preview : pystr)
  | Finished (count : nat).

Definition preview (para : Paragraph) : pystr :=
  take 42 (text para)
  ++ (if (42 <? length (text para))%nat then u "..." else []).

(** The body of the loop of [convert_document] for paragraph [i]: the level
    found and the paragraph as rewritten, or nothing for a paragraph that is
    skipped. *)
Definition convert_paragraph (template : Template) (all_sizes : list N)
    (i : nat) (para : Paragraph) : result (option (level * Paragraph)) :=
  if skipped para then Ok None
  else
    level ← detect_level para all_sizes i;
    runs' ← for_each_run
              (fun run => apply_run_format run (sizes template level)
                            (chinese_font template) (western_font template))
              (runs para);
    para' ← apply_para_format {| pPr := pPr para; runs := runs' |}
                              level template;
    Ok (Some (level, para')).

Fixpoint convert_loop (template : Template) (all_sizes : list N) (i : nat)
    (paragraphs : list Paragraph)
  : result (list Paragraph * list log_line * nat) :=
  match paragraphs with
  | [] => Ok ([], [], 0%nat)
  | para :: rest =>
    done ← convert_paragraph template all_sizes i para;
    '(rest', log, count) ← convert_loop template all_sizes (S i) rest;
    Ok (match done with
        | Some (level, para') =>
          (para' :: rest', Processed level (preview para') :: log, S count)
        | None => (para :: rest', log, count)
        end)
  end.

(** The document that [convert_document] saves and the calls of [log_fn] it
    makes; a raised exception leaves no output. *)
Definition convert_document (doc : Document) (template : Template)
  : result (Document * list log_line) :=
  let paragraphs := doc in
  let all_sizes := para_max_size <$> paragraphs in
  '(paragraphs', log, count) ← convert_loop template all_sizes 0 paragraphs;
  Ok (paragraphs', log ++ [Finished count]).

(** ** Sample inputs *)

(** A paragraph of one unformatted run. *)
Definition plain (s : string) : Paragraph :=
  {| pPr := None; runs := [ {| rPr := None; r_text := u s |} ] |}.

(** A paragraph of one run with an explicit size, bold or not. *)
Definition sized (s : string) (size : N) (bold : bool) : Paragraph :=
  {| pPr := None;
     runs := [ {| rPr := Some {| rFonts := None;
                                 sz := Some {| hps_val := Some size |};
                                 szCs := None;
                                 b := if bold then Some ∅ else None |};
                  r_text := u s |} ] |}.

(** The first built-in template, 通用模板. *)
Definition GENERAL : Template :=
  match templates DEFAULT_CONFIG with
  | (_, t) :: _ => t
  | [] => {| chinese_font := []; western_font := []; sizes := fun _ => 0;
             line_spacing := PInt 1; spacing := fun _ => None;
             first_line_indent := false |}
  end.

(** A bold, numbered paragraph of 41 characters with the largest runs of its
    document. *)
Definition long_numbered : Paragraph :=
  sized "1.2.3 本节给出实验的全部结果并与上一节的方法逐项对照说明其差异与原因所在之处"
        44 true.

(** Three short paragraphs with run sizes 20, 30 and 20: the middle one is
    the title. *)
Definition peak_doc : Document :=
  [sized "摘要如下" 20 false; sized "论文格式研究" 30 false;
   sized "作者不详" 20 false].

(** ** What the specification calls a three-level number

    A text that begins with digits, a dot, digits, a dot and a digit, where
    the digits and the dots may be full-width. *)
Definition is_digit (c : N) : Prop := Re.in_class digits c = true.
Definition is_dot (c : N) : Prop := Re.in_class dots c = true.

Definition three_level (t : pystr) : Prop :=
  ∃ d1 p1 d2 p2 c rest,
    t = d1 ++ p1 :: d2 ++ p2 :: c :: rest
    ∧ d1 ≠ [] ∧ Forall is_digit d1 ∧ is_dot p1
    ∧ d2 ≠ [] ∧ Forall is_digit d2 ∧ is_dot p2 ∧ is_digit c.

(** The second built-in template, 学术期刊投稿. *)
Definition JOURNAL : Template :=
  match templates DEFAULT_CONFIG with
  | _ :: (_, t) :: _ => t
  | _ => GENERAL
  end.

(** 通用模板 with the line spacing edited to 1.01; the literal is the double
    nearest to 1.01, the one [float("1.01")] returns. *)
Definition NARROW : Template :=
  {| chinese_font := chinese_font GENERAL;
     western_font := western_font GENERAL;
     sizes := sizes GENERAL;
     line_spacing := PFloat 0x1.028f5c28f5c29p+0;
     spacing := spacing GENERAL;
     first_line_indent := true |}.

(** A paragraph that arrives with a character-based and a measured
    first-line indent. *)
Definition indented (s : string) : Paragraph :=
  {| pPr := Some {| spacing_el := None;
                    ind := Some (<["w:firstLineChars"%string := u "200"]>
                                 (<["w:firstLine"%string := u "480"]> ∅)) |};
     runs := [ {| rPr := None; r_text := u s |} ] |}.

(** ** Reading a paragraph's properties back *)

(** An attribute of the paragraph's [w:spacing], if there is one. *)
Definition spacing_attr (para : Paragraph) (name : string) : option pystr :=
  sp ← pPr para ≫= spacing_el; sp !! name.

(** An attribute of the paragraph's [w:ind], if there is one. *)
Definition ind_attr (para : Paragraph) (name : string) : option pystr :=
  i ← pPr para ≫= ind; i !! name.


(** ** Reading a run's properties back *)

(** The run's [w:b] element, if there is one. *)
Definition run_b (run : Run) : option attrs := rPr run ≫= b.

(** An attribute of the run's [w:rFonts], if there is one. *)
Definition font_attr (run : Run) (name : string) : option pystr :=
  f ← rPr run ≫= rFonts; f !! name.

(** The four font attributes that [apply_run_format] sets. *)
Definition font_names : list string :=
  ["w:ascii"; "w:hAnsi"; "w:eastAsia"; "w:cs"]%string.

(** ** Words of the data model *)

(** The size a run declares, in half-points: the [w:val] of its [w:sz], and
    0 when it declares none. *)
Definition declared_size (run : Run) : N :=
  default 0 ((rPr run ≫= sz) ≫= hps_val).

(** [m] is the size of the paragraph: no run declares more, some run
    declares that much, and it is 0 for a paragraph without runs. *)
Definition largest_size (para : Paragraph) (m : N) : Prop :=
  Forall (fun run => declared_size run ≤ m) (runs para)
  ∧ match runs para with
    | [] => m = 0
    | _ => ∃ run, run ∈ runs para ∧ declared_size run = m
    end.

(** The values of [w:val] that switch a toggle such as [w:b] off. *)
Definition switched_off : list pystr := [u "0"; u "false"; u "off"].

(** A run is bold when it carries a [w:b] that is switched on: one without
    [w:val], or with a [w:val] that is none of the off values. *)
Definition bold (run : Run) : Prop :=
  ∃ b, run_b run = Some b
       ∧ ∀ v, b !! "w:val"%string = Some v → v ∉ switched_off.

(** A run is marked bold when it carries a [w:b] without [w:val], or with
    a [w:val] other than "0": every bold run, and also a run whose [w:b] is
    switched off by "false" or "off". *)
Definition marked_bold (run : Run) : Prop :=
  ∃ b, run_b run = Some b ∧ b !! "w:val"%string ≠ Some (u "0").

(** A run carries both size elements, [w:sz] and [w:szCs]. *)
Definition has_both_sizes (run : Run) : Prop :=
  ∃ rPr0 sz0 szCs0,
    rPr run = Some rPr0 ∧ sz rPr0 = Some sz0 ∧ szCs rPr0 = Some szCs0.

(** ** Words of the checker's contract *)

(** A paragraph that the checker examines: its text is not empty once trimmed
    and it has a run. *)
Definition examined (para : Paragraph) : bool :=
  bool_decide (strip (text para) ≠ [] ∧ runs para ≠ []).

(** A run that the size check reports: it declares a size, and not the
    target. *)
Definition mismatched (target_size : N) (run : Run) : bool :=
  bool_decide (declared_size run ≠ 0 ∧ declared_size run ≠ target_size).

Definition is_size_mismatch (p : problem) : bool :=
  match p with
  | SizeMismatch _ _ => true
  | MissingIndent => false
  end.

(** The paragraph has a first-line indent: its [w:ind] carries a
    [w:firstLine] that is not empty. *)
Definition has_first_line (para : Paragraph) : bool :=
  match ind_attr para "w:firstLine" with
  | Some (_ :: _) => true
  | _ => false
  end.

(** The descriptions due for a paragraph of a given level: one for the first
    mismatched run, and the missing indent of a Body paragraph when the
    template asks for one. *)
Definition expected_problems (template : Template) (level : level)
    (para : Paragraph) : list problem :=
  match List.find (mismatched (sizes template level)) (runs para) with
  | Some run => [SizeMismatch (sizes template level) (declared_size run)]
  | None => []
  end
  ++ (if bool_decide (level = body ∧ first_line_indent template = true
                      ∧ has_first_line para = false)
      then [MissingIndent] else []).

(** The entry due for paragraph [i]: none when the paragraph is not examined
    or has nothing to report. *)
Definition expected_entry (template : Template) (all_sizes : list N)
    (i : nat) (para : Paragraph) : option Issue :=
  if examined para then
    match detect_level para all_sizes i with
    | Ok l =>
      match expected_problems template l para with
      | [] => None
      | problems => Some {| i_level := l;
                            i_text := take 40 (strip (text para));
                            i_issues := problems |}
      end
    | Raise _ => None
    end
  else None.

(** The report due for a document: the entries of its paragraphs, in the
    order of the document. *)
Definition expected_report (template : Template) (doc : Document)
  : list Issue :=
  omap id (imap (expected_entry template (para_max_size <$> doc)) doc).

(** ** More sample inputs *)

(** A paragraph of one run that carries both size elements, bold by a
    [<w:b/>] or not bold. *)
Definition styled (s : string) (size : N) (is_bold : bool) : Paragraph :=
  {| pPr := None;
     runs := [ {| rPr := Some {| rFonts := None;
                                 sz := Some {| hps_val := Some size |};
                                 szCs := Some {| hps_val := Some size |};
                                 b := if is_bold then Some ∅ else None |};
                  r_text := u s |} ] |}.

(** A paragraph of one run whose bold is switched off by
    [<w:b w:val="false"/>]. *)
Definition unbold (s : string) (size : N) : Paragraph :=
  {| pPr := None;
     runs := [ {| rPr := Some {| rFonts := None;
                                 sz := Some {| hps_val := Some size |};
                                 szCs := Some {| hps_val := Some size |};
                                 b := Some {[ "w:val"%string := u "false" ]} |};
                  r_text := u s |} ] |}.

(** A short paragraph that is not bold, between two paragraphs with larger
    runs. *)
Definition unbold_doc : Document :=
  [ styled "第一章 引言" 30 false; unbold "致谢" 21;
    styled "感谢导师在论文写作期间给予的悉心指导与帮助。" 24 false ].

(** A paragraph "1.1.1 实验结果" in three runs of sizes 24, 28 and 30, the
    last two larger than heading3's 24. *)
Definition oversized : Paragraph :=
  {| pPr := None;
     runs := (fun '(s, size) =>
                {| rPr := Some {| rFonts := None;
                                  sz := Some {| hps_val := Some size |};
                                  szCs := None; b := None |};
                   r_text := s |})
             <$> [(u "1.1.1 ", 24); (u "实验", 28); (u "结果", 30)] |}.

(** A bold title, a paragraph of two runs with fonts, sizes and an explicit
    bold-off of their own, and an empty paragraph without properties. *)
Definition mixed_doc : Document :=
  [ styled "论文格式研究" 36 true;
    {| pPr := None;
       runs := [ {| rPr := Some {| rFonts := Some {[ "w:hint"%string := u "eastAsia" ]};
                                   sz := Some {| hps_val := Some 18 |};
                                   szCs := Some {| hps_val := Some 18 |};
                                   b := Some {[ "w:val"%string := u "0" ]} |};
                    r_text := u "本文研究" |};
                 {| rPr := Some {| rFonts := None;
                                   sz := Some {| hps_val := Some 20 |};
                                   szCs := Some {| hps_val := None |};
                                   b := None |};
                    r_text := u " format " |} ] |};
    plain "  " ].

(** A title of size 40 that is not bold, above a bold line of size 30. *)
Definition title_doc : Document :=
  [ styled "论文格式研究" 40 false; styled "某某大学 张三" 30 true ].

(** The specification's scenario, every run of size 24: a chapter heading,
    a body paragraph of 35 characters and a section heading. *)
Definition scenario_doc : Document :=
  [ styled "第一章 引言" 24 false;
    styled "这是一段很长的正文，用来说明正文段落在转换之后的格式，共三十五个字符。"
           24 false;
    styled "1.1 背景" 24 false ].

(** The same scenario typed without any run properties. *)
Definition unstyled_doc : Document :=
  [ plain "第一章 引言";
    plain "这是一段很长的正文，用来说明正文段落在转换之后的格式，共三十五个字符。";
    plain "1.1 背景" ].

(** ** Words of the idempotence property *)

(** A paragraph whose level the text or a mark of boldness settles: the
    text is empty, or longer than 30 characters, or numbered, or some run is
    marked bold. Every other paragraph is a short, unnumbered one without
    such a mark, which [detect_level] classifies by comparing run sizes. *)
Definition settled (para : Paragraph) : Prop :=
  let t := strip (text para) in
  t = [] ∨ (30 < length t)%nat
  ∨ Re.match_ RE_HEADING3 t = true ∨ Re.match_ RE_HEADING2 t = true
  ∨ Re.match_ RE_HEADING1 t = true
  ∨ ∃ run, run ∈ runs para ∧ marked_bold run.

(** Classifying the output [out] gives every paragraph the level it had in
    [doc]. *)
Definition same_levels (doc out : Document) : Prop :=
  ∀ i para para', doc !! i = Some para → out !! i = Some para' →
    detect_level para' (para_max_size <$> out) i
    = detect_level para (para_max_size <$> doc) i.

(** ** Words of the numbering rules *)

Definition is_numeral (c : N) : Prop := Re.in_class numerals c = true.

(** The characters that may follow a one-level number: white space, the
    ideographic space, a dot of either width, the ideographic comma. *)
Definition is_separator (c : N) : Prop :=
  Re.in_class [Re.Space; Re.One (ch "　"); Re.One (ch ".");
               Re.One (ch "。"); Re.One (ch "、")] c = true.

(** The text does not go on with a digit. *)
Definition no_digit_next (rest : pystr) : Prop :=
  match rest with
  | [] => True
  | c :: _ => ¬ is_digit c
  end.

(** A two-level number: digits, a dot and digits, after which the text
    neither goes on with a digit nor with a dot and a digit. *)
Definition two_level (t : pystr) : Prop :=
  ∃ d1 p d2 rest,
    t = d1 ++ p :: d2 ++ rest
    ∧ d1 ≠ [] ∧ Forall is_digit d1 ∧ is_dot p
    ∧ d2 ≠ [] ∧ Forall is_digit d2
    ∧ no_digit_next rest
    ∧ match rest with
      | c :: rest' => is_dot c → no_digit_next rest'
      | [] => True
      end.

(** The three forms of a one-level number: digits and a separator, not
    followed by a digit when the separator is a dot; Chinese numerals and
    an ideographic comma or a dot; 第, numerals or ASCII digits, and one of
    章 节 部 篇. *)
Definition one_level (t : pystr) : Prop :=
  (∃ d c rest,
     t = d ++ c :: rest ∧ d ≠ [] ∧ Forall is_digit d ∧ is_separator c
     ∧ (is_dot c → no_digit_next rest))
  ∨ (∃ ns c rest,
     t = ns ++ c :: rest ∧ ns ≠ [] ∧ Forall is_numeral ns
     ∧ (c = ch "、" ∨ c = ch "."))
  ∨ (∃ ns c rest,
     t = ch "第" :: ns ++ c :: rest ∧ ns ≠ []
     ∧ Forall (fun c => is_numeral c ∨ (ch "0" ≤ c ∧ c ≤ ch "9")) ns
     ∧ c ∈ u "章节部篇").

(** The paragraph reaches the comparison of sizes: its text is not empty,
    has at most 30 characters and carries no number. *)
Definition reaches_size_test (para : Paragraph) : Prop :=
  let t := strip (text para) in
  t ≠ [] ∧ (length t ≤ 30)%nat
  ∧ Re.match_ RE_HEADING3 t = false ∧ Re.match_ RE_HEADING2 t = false
  ∧ Re.match_ RE_HEADING1 t = false.

(** ** Words of the converter's contract *)

(** The line of the log due for paragraph [i]: none for a paragraph that is
    not examined. *)
Definition expected_line (all_sizes : list N) (i : nat) (para : Paragraph)
  : option log_line :=
  if examined para then
    match detect_level para all_sizes i with
    | Ok l => Some (Processed l (preview para))
    | Raise _ => None
    end
  else None.

(** The log due for a document: a line for every examined paragraph, in the
    order of the document, and the closing line with their number. *)
Definition expected_log (doc : Document) : list log_line :=
  omap id (imap (expected_line (para_max_size <$> doc)) doc)
  ++ [Finished (length (List.filter examined doc))].

(** A run as the template prescribes it for a level: the four font names
    and both sizes. *)
Definition formatted_run (template : Template) (l : level) (run : Run) : Prop :=
  font_attr run "w:ascii" = Some (western_font template)
  ∧ font_attr run "w:hAnsi" = Some (western_font template)
  ∧ font_attr run "w:eastAsia" = Some (chinese_font template)
  ∧ font_attr run "w:cs" = Some (western_font template)
  ∧ declared_size run = sizes template l
  ∧ (rPr run ≫= szCs) ≫= hps_val = Some (sizes template l).



(** The attributes that [apply_para_format] sets on [w:spacing], and those
    it sets or removes on [w:ind]. *)
Definition spacing_names : list string :=
  ["w:before"; "w:after"; "w:line"; "w:lineRule"]%string.
Definition ind_names : list string :=
  ["w:firstLine"; "w:firstLineChars"]%string.

(** * Theorems *)

(** ** The matcher *)

Section Matcher.
Import Re.

Lemma more_true cls pos s : more cls (fun _ _ => true) pos s = true.
Proof.
  revert pos; induction s as [|c s IH]; intros pos; simpl; [done|].
  destruct (in_class cls c); [|done]. by rewrite IH.
Qed.

(** A greedy repetition may stop after any run of characters of its class:
    backtracking reaches every split. *)
Lemma more_reach cls (k : cont) ds s pos :
  Forall (fun c => in_class cls c = true) ds →
  k (pos + length ds)%nat s = true →
  more cls k pos (ds ++ s) = true.
Proof.
  intros Hds; revert pos; induction Hds as [|c ds Hc _ IH]; intros pos Hk.
  - rewrite Nat.add_0_r in Hk. destruct s as [|c s]; simpl; [done|].
    rewrite Hk. destruct (in_class cls c); [apply orb_true_r|done].
  - simpl in *. rewrite Nat.add_succ_r in Hk.
    by rewrite Hc, IH.
Qed.

Lemma plus_reach cls (k : cont) c ds s pos :
  Forall (fun c => in_class cls c = true) (c :: ds) →
  k (S pos + length ds)%nat s = true →
  run (Plus cls) k pos ((c :: ds) ++ s) = true.
Proof.
  intros Hds Hk. inversion_clear Hds as [|? ? Hc Hds']. simpl.
  rewrite Hc. by apply more_reach.
Qed.

End Matcher.

Lemma three_level_matches t : three_level t → Re.match_ RE_HEADING3 t = true.
Proof.
  intros (d1 & p1 & d2 & p2 & c & rest & -> & Hn1 & Hd1 & Hp1
          & Hn2 & Hd2 & Hp2 & Hc).
  destruct d1 as [|a1 d1]; [done|]. destruct d2 as [|a2 d2]; [done|].
  unfold Re.match_, RE_HEADING3. cbn [Re.seq].
  change (Re.run (Re.Cat Re.Bol ?r) ?k 0%nat ?s) with (true && Re.run r k 0%nat s).
  rewrite andb_true_l. cbn [Re.run].
  apply (plus_reach digits); [done|].
  cbn [Re.run]. unfold is_dot in Hp1. rewrite Hp1, andb_true_l.
  change (a2 :: d2 ++ p2 :: c :: rest) with ((a2 :: d2) ++ p2 :: c :: rest).
  apply (plus_reach digits); [done|].
  cbn [Re.run]. unfold is_dot in Hp2. rewrite Hp2, andb_true_l.
  unfold is_digit in Hc. rewrite Hc, andb_true_l.
  apply more_true.
Qed.

Lemma three_level_nonempty t : three_level t → t ≠ [].
Proof.
  intros (d1 & p1 & d2 & p2 & c & rest & -> & Hn1 & _).
  by destruct d1.
Qed.

(** ** The classifier *)

(** C3. A paragraph whose text, trimmed, is empty or longer than 40
    characters is classified Body, whatever its numbering, boldness or run
    sizes, and whatever the size profile and the index. *)
Theorem detect_level_empty_or_long para all_sizes idx :
  strip (text para) = [] ∨ (40 < length (strip (text para)))%nat →
  detect_level para all_sizes idx = Ok body.
Proof.
  intros H. unfold detect_level. cbv zeta.
  destruct H as [-> | H]; [done|].
  apply Nat.ltb_lt in H. unfold HEADING_MAX_LEN. rewrite H.
  by rewrite orb_true_r.
Qed.

Lemma detect_level_empty_or_long_witness :
  (strip (text long_numbered) = []
   ∨ (40 < length (strip (text long_numbered)))%nat)
  ∧ detect_level long_numbered [21; 44; 21] 1 = Ok body.
Proof.
  assert (H : strip (text long_numbered) = []
              ∨ (40 < length (strip (text long_numbered)))%nat).
  { right. apply Nat.ltb_lt. vm_compute. reflexivity. }
  split; [exact H|].
  exact (detect_level_empty_or_long long_numbered [21; 44; 21] 1 H).
Defined.

(** The tests of [detect_level] that read only the text. *)
Lemma detect_level_heading3 para all_sizes idx :
  let t := strip (text para) in
  t ≠ [] → (length t ≤ 40)%nat → Re.match_ RE_HEADING3 t = true →
  detect_level para all_sizes idx = Ok heading3.
Proof.
  intros t Hne Hlen Hm. unfold detect_level. cbv zeta. fold t.
  destruct t as [|c t'] eqn:Et; [done|].
  apply Nat.ltb_ge in Hlen. unfold HEADING_MAX_LEN.
  by rewrite Hlen, Hm.
Qed.

(** C2 (amended). The numbering rules classify the five examples as the
    specification lists them, and the two-level pattern does not match
    "1.2.3 实验结果"; a text of at most 40 characters that begins with a
    three-level number is Heading3, never Heading2. *)
Theorem numbering_examples para all_sizes idx :
  let t := strip (text para) in
  (t = u "1.2.3 实验结果" →
     detect_level para all_sizes idx = Ok heading3
     ∧ Re.match_ RE_HEADING2 t = false)
  ∧ (t = u "1.2 实验方法" → detect_level para all_sizes idx = Ok heading2)
  ∧ (t = u "1 绪论" → detect_level para all_sizes idx = Ok heading1)
  ∧ (t = u "第一章 绪论" → detect_level para all_sizes idx = Ok heading1)
  ∧ (t = u "一、研究背景" → detect_level para all_sizes idx = Ok heading1)
  ∧ (three_level t → (length t ≤ 40)%nat →
     detect_level para all_sizes idx = Ok heading3
     ∧ detect_level para all_sizes idx ≠ Ok heading2).
Proof.
  intros t.
  assert (Hex : ∀ s l, t = s →
            (if negb (truthy s) || (HEADING_MAX_LEN <? length s)%nat
             then Ok body
             else if Re.match_ RE_HEADING3 s then Ok heading3
             else if Re.match_ RE_HEADING2 s then Ok heading2
             else if Re.match_ RE_HEADING1 s then Ok heading1
             else Raise ValueError) = Ok l →
            detect_level para all_sizes idx = Ok l).
  { intros s l Hs. unfold detect_level. cbv zeta. fold t. rewrite Hs.
    destruct (negb (truthy s) || _); [done|].
    by repeat (destruct (Re.match_ _ s); [done|]). }
  split; [|split; [|split; [|split; [|split]]]].
  - intros Ht. split; [eapply Hex; [exact Ht|by vm_compute]|].
    rewrite Ht. by vm_compute.
  - intros Ht. eapply Hex; [exact Ht|by vm_compute].
  - intros Ht. eapply Hex; [exact Ht|by vm_compute].
  - intros Ht. eapply Hex; [exact Ht|by vm_compute].
  - intros Ht. eapply Hex; [exact Ht|by vm_compute].
  - intros H3 Hlen.
    pose proof (detect_level_heading3 para all_sizes idx
                  (three_level_nonempty _ H3) Hlen
                  (three_level_matches _ H3)) as H.
    rewrite H. done.
Qed.

Lemma three_level_example : three_level (strip (text (plain "1.2.3 实验结果"))).
Proof.
  exists [49], 46, [50], 46, 51, (u " 实验结果").
  repeat split; try done; repeat constructor.
Qed.

Lemma numbering_examples_witness :
  three_level (strip (text (plain "1.2.3 实验结果")))
  ∧ (length (strip (text (plain "1.2.3 实验结果"))) ≤ 40)%nat
  ∧ detect_level (plain "1.2.3 实验结果") [0] 0 = Ok heading3.
Proof.
  assert (Hl : (length (strip (text (plain "1.2.3 实验结果"))) ≤ 40)%nat).
  { apply Nat.leb_le. vm_compute. reflexivity. }
  split; [exact three_level_example|]. split; [exact Hl|].
  destruct (numbering_examples (plain "1.2.3 实验结果") [0] 0)
    as (_ & _ & _ & _ & _ & H).
  exact (proj1 (H three_level_example Hl)).
Defined.

(** Without the bound on the length the statement fails: this text
    begins with 1.2.3 and is Body. *)
Lemma long_three_level_is_body :
  three_level (strip (text long_numbered))
  ∧ detect_level long_numbered [21; 44; 21] 1 = Ok body.
Proof.
  split; [|by vm_compute].
  exists [49], 46, [50], 46, 51, (drop 5 (strip (text long_numbered))).
  repeat split; try done; repeat constructor.
Qed.

(** On its own the two-level pattern does match some three-level numbers:
    the repetition gives back a digit and the look-ahead then sees no dot.
    [detect_level] is not affected, it tries the three-level pattern first. *)
Lemma heading2_pattern_backtracks :
  Re.match_ RE_HEADING2 (u "1.23.4 结果") = true
  ∧ detect_level (plain "1.23.4 结果") [0] 0 = Ok heading3.
Proof. by vm_compute. Qed.

(** C4. A paragraph of a document whose trimmed text is non-empty, at most
    40 characters long and matches none of the numbering patterns is
    MainTitle exactly when the text has at most 30 characters and some run
    is bold or its largest run size exceeds those of the paragraph before
    and the paragraph after, a missing neighbour counting as 0; otherwise it
    is Body. *)
Theorem detect_level_unnumbered (doc : Document) idx para :
  let t := strip (text para) in
  let my_size := para_max_size para in
  let prev_size :=
    match idx with
    | O => 0
    | S j => default 0 (para_max_size <$> doc !! j)
    end in
  let next_size := default 0 (para_max_size <$> doc !! S idx) in
  doc !! idx = Some para →
  t ≠ [] → (length t ≤ 40)%nat →
  Re.match_ RE_HEADING3 t = false →
  Re.match_ RE_HEADING2 t = false →
  Re.match_ RE_HEADING1 t = false →
  detect_level para (para_max_size <$> doc) idx =
    Ok (if (length t <=? 30)%nat
           && (para_is_bold para
               || ((prev_size <? my_size) && (next_size <? my_size)))
        then main_title else body).
Proof.
  intros t my_size prev_size next_size Hidx Hne Hlen H3 H2 H1.
  unfold detect_level. cbv zeta. fold t. rewrite H3, H2, H1.
  destruct t as [|c t'] eqn:Et; [done|]. rewrite <- Et in *.
  apply Nat.ltb_ge in Hlen. unfold HEADING_MAX_LEN, MAIN_TITLE_MAX_LEN.
  rewrite Hlen. rewrite Et at 1. cbn [truthy negb orb].
  destruct (length t <=? 30)%nat; [|done]. cbn [andb].
  pose proof (lookup_lt_Some _ _ _ Hidx) as Hlt.
  assert (Hprev : (if (0 <? idx)%nat
                   then index (para_max_size <$> doc) (idx - 1)
                   else Ok 0) = Ok prev_size).
  { subst prev_size. destruct idx as [|j]; [done|]. cbn [Nat.ltb Nat.leb].
    replace (S j - 1)%nat with j by lia. unfold index.
    rewrite list_lookup_fmap.
    destruct (lookup_lt_is_Some_2 doc j) as [pj ->]; [lia|]. done. }
  assert (Hnext : (if (Z.of_nat idx
                       <? Z.of_nat (length (para_max_size <$> doc)) - 1)%Z
                   then index (para_max_size <$> doc) (idx + 1)
                   else Ok 0) = Ok next_size).
  { subst next_size. rewrite length_fmap. replace (idx + 1)%nat with (S idx) by lia.
    unfold index. rewrite list_lookup_fmap.
    destruct (doc !! S idx) as [pn|] eqn:En.
    - apply lookup_lt_Some in En.
      destruct (Z.ltb_spec (Z.of_nat idx) (Z.of_nat (length doc) - 1)); [done|lia].
    - apply lookup_ge_None in En.
      destruct (Z.ltb_spec (Z.of_nat idx) (Z.of_nat (length doc) - 1)); [lia|done]. }
  rewrite Hprev. cbn [mbind result_bind]. rewrite Hnext. cbn [mbind result_bind].
  fold my_size.
  replace ((0 <? my_size) && (prev_size <? my_size) && (next_size <? my_size))
    with ((prev_size <? my_size) && (next_size <? my_size)).
  - by destruct (para_is_bold para || _).
  - destruct (N.ltb_spec prev_size my_size); [|by rewrite andb_false_r].
    destruct (N.ltb_spec 0 my_size); [done|lia].
Qed.

Lemma detect_level_unnumbered_witness :
  detect_level (sized "论文格式研究" 30 false) (para_max_size <$> peak_doc) 1
  = Ok main_title.
Proof.
  refine (detect_level_unnumbered peak_doc 1 (sized "论文格式研究" 30 false)
            _ _ _ _ _ _).
  - reflexivity.
  - vm_compute. discriminate.
  - apply Nat.leb_le. vm_compute. reflexivity.
  - vm_compute. reflexivity.
  - vm_compute. reflexivity.
  - vm_compute. reflexivity.
Defined.

(** ** The applicator *)

(** What [apply_para_format] returns when it returns: the three numbers it
    computed and the paragraph built from them. *)
Lemma apply_para_format_Ok para level template para' :
  apply_para_format para level template = Ok para' ↔
  ∃ before after line,
    (num_mul (default (PInt 0, PInt 0) (spacing template level)).1 (PInt 20)
       ≫= py_int) = Ok before
    ∧ (num_mul (default (PInt 0, PInt 0) (spacing template level)).2 (PInt 20)
         ≫= py_int) = Ok after
    ∧ (num_mul (PInt 240)
         (if decide (level = body) then line_spacing template else PFloat 1.0)
         ≫= py_int) = Ok line
    ∧ para' =
      let pPr0 := default {| spacing_el := None; ind := None |} (pPr para) in
      {| pPr := Some {|
           spacing_el := Some
             (<["w:lineRule"%string := u "auto"]>
              (<["w:line"%string := py_str line]>
               (<["w:after"%string := py_str after]>
                (<["w:before"%string := py_str before]>
                 (default ∅ (spacing_el pPr0))))));
           ind := Some
             (if first_line_indent template && bool_decide (level = body)
              then <["w:firstLine"%string :=
                       py_str (Z.of_N (sizes template level * 20))]>
                     (default ∅ (ind pPr0))
              else delete "w:firstLineChars"%string
                     (delete "w:firstLine"%string (default ∅ (ind pPr0)))) |};
         runs := runs para |}.
Proof.
  unfold apply_para_format. cbv zeta.
  destruct (default (PInt 0, PInt 0) (spacing template level)) as [bp ap].
  cbn [fst snd].
  destruct (num_mul bp (PInt 20) ≫= py_int) as [before|e] eqn:Eb;
    [|split; [done|by intros (?&?&?&?&_)]].
  destruct (num_mul ap (PInt 20) ≫= py_int) as [after|e] eqn:Ea;
    [|split; [done|by intros (?&?&?&_&?&_)]].
  cbn [mbind result_bind].
  destruct (num_mul (PInt 240) _ ≫= py_int) as [line|e] eqn:El;
    [|split; [done|by intros (?&?&?&_&_&?&_)]].
  cbn [mbind result_bind]. split.
  - intros [= <-]. by exists before, after, line.
  - intros (before' & after' & line' & [= <-] & [= <-] & [= <-] & ->). done.
Qed.

(** An [int] number of points becomes twenty times as many twips. *)
Lemma points_to_twips (pt : Z) :
  (num_mul (PInt pt) (PInt 20) ≫= py_int) = Ok (pt * 20)%Z.
Proof. reflexivity. Qed.

(** The single spacing of headings: [int(240 * 1.0)]. *)
Lemma single_line : (num_mul (PInt 240) (PFloat 1.0) ≫= py_int) = Ok 240%Z.
Proof. by vm_compute. Qed.

(** [apply_para_format] returns as soon as its three numbers convert. *)
Lemma apply_para_format_returns para level template before after line :
  (num_mul (default (PInt 0, PInt 0) (spacing template level)).1 (PInt 20)
     ≫= py_int) = Ok before →
  (num_mul (default (PInt 0, PInt 0) (spacing template level)).2 (PInt 20)
     ≫= py_int) = Ok after →
  (num_mul (PInt 240)
     (if decide (level = body) then line_spacing template else PFloat 1.0)
     ≫= py_int) = Ok line →
  ∃ para', apply_para_format para level template = Ok para'.
Proof.
  intros Hb Ha Hl. eexists. apply apply_para_format_Ok.
  exists before, after, line. eauto.
Qed.

(** C5 (amended). [apply_para_format] writes as spacing before and after the
    integer parts of twenty times the template's two point values for the
    level (a missing pair counting as [0, 0]), and as line spacing the
    integer part of 240 times the template's multiplier when the level is
    Body, and 240 for every other level. *)
Theorem apply_para_format_spacing para level template before after line :
  let points := default (PInt 0, PInt 0) (spacing template level) in
  (num_mul points.1 (PInt 20) ≫= py_int) = Ok before →
  (num_mul points.2 (PInt 20) ≫= py_int) = Ok after →
  (level = body →
   (num_mul (PInt 240) (line_spacing template) ≫= py_int) = Ok line) →
  ∃ para',
    apply_para_format para level template = Ok para'
    ∧ spacing_attr para' "w:before" = Some (py_str before)
    ∧ spacing_attr para' "w:after" = Some (py_str after)
    ∧ spacing_attr para' "w:line"
      = Some (py_str (if decide (level = body) then line else 240%Z)).
Proof.
  intros points Hb Ha Hl.
  set (line' := if decide (level = body) then line else 240%Z).
  assert (Hl' : (num_mul (PInt 240)
                   (if decide (level = body) then line_spacing template
                    else PFloat 1.0) ≫= py_int) = Ok line').
  { subst line'. destruct (decide (level = body)); [auto|apply single_line]. }
  eexists. split.
  - apply apply_para_format_Ok. exists before, after, line'. eauto.
  - unfold spacing_attr. cbn [pPr spacing_el mbind option_bind].
    by simplify_map_eq.
Qed.

(** Heading1 of 学术期刊投稿 has spacing [12, 6] and the body multiplier is
    2.0: before 240, after 120, single line spacing; its Body gets 480. *)
Lemma apply_para_format_spacing_witness :
  (∃ para',
     apply_para_format (plain "第一章 引言") heading1 JOURNAL = Ok para'
     ∧ spacing_attr para' "w:before" = Some (u "240")
     ∧ spacing_attr para' "w:after" = Some (u "120")
     ∧ spacing_attr para' "w:line" = Some (u "240"))
  ∧ (∃ para',
     apply_para_format (plain "正文") body JOURNAL = Ok para'
     ∧ spacing_attr para' "w:before" = Some (u "0")
     ∧ spacing_attr para' "w:after" = Some (u "0")
     ∧ spacing_attr para' "w:line" = Some (u "480")).
Proof.
  split.
  - refine (apply_para_format_spacing (plain "第一章 引言") heading1 JOURNAL
              240 120 0 _ _ _).
    + reflexivity.
    + reflexivity.
    + discriminate.
  - refine (apply_para_format_spacing (plain "正文") body JOURNAL
              0 0 480 _ _ _).
    + reflexivity.
    + reflexivity.
    + intros _. vm_compute. reflexivity.
Defined.

(** With the multiplier 1.01 the line spacing written for Body is 242, and
    242 is not 240 times the multiplier. *)
Lemma line_spacing_is_truncated :
  ∃ para',
    apply_para_format (plain "正文") body NARROW = Ok para'
    ∧ spacing_attr para' "w:line" = Some (u "242")
    ∧ (product ← num_mul (PInt 240) (line_spacing NARROW);
       Ok (num_eqb (PInt 242) product)) = Ok false.
Proof.
  destruct (apply_para_format_returns (plain "正文") body NARROW 0 0 242)
    as [para' H]; [done|done|by vm_compute|].
  exists para'. split; [done|]. split; [|by vm_compute].
  apply apply_para_format_Ok in H as (? & ? & line & _ & _ & Hl & ->).
  assert (line = 242%Z) as -> by (vm_compute in Hl; congruence).
  unfold spacing_attr. cbn [pPr spacing_el mbind option_bind].
  by simplify_map_eq.
Qed.

(** C6. [apply_para_format] leaves a first-line indent only when the level is
    Body and the template asks for one, and the indent is then twenty times
    the template's body size; in every other case the paragraph has neither
    [w:firstLine] nor [w:firstLineChars] afterwards. *)
Theorem apply_para_format_indent para level template para' :
  apply_para_format para level template = Ok para' →
  if first_line_indent template && bool_decide (level = body)
  then ind_attr para' "w:firstLine"
       = Some (py_str (Z.of_N (sizes template body * 20)))
  else ind_attr para' "w:firstLine" = None
       ∧ ind_attr para' "w:firstLineChars" = None.
Proof.
  intros H. apply apply_para_format_Ok in H as (? & ? & ? & _ & _ & _ & ->).
  unfold ind_attr. cbn [pPr ind mbind option_bind].
  destruct (first_line_indent template); cbn [andb].
  - case_bool_decide as Hl; [subst level|]; by simplify_map_eq.
  - by simplify_map_eq.
Qed.

(** Body size 21 gives the indent 420; a heading that arrives indented
    loses both attributes. *)
Lemma apply_para_format_indent_witness :
  (∃ para', apply_para_format (plain "正文") body GENERAL = Ok para'
            ∧ ind_attr para' "w:firstLine" = Some (u "420"))
  ∧ (∃ para', apply_para_format (indented "1.1 背景") heading2 GENERAL = Ok para'
              ∧ ind_attr para' "w:firstLine" = None
              ∧ ind_attr para' "w:firstLineChars" = None).
Proof.
  split.
  - destruct (apply_para_format_returns (plain "正文") body GENERAL 0 0 360)
      as [para' H]; [done|done|by vm_compute|].
    exists para'. split; [exact H|].
    exact (apply_para_format_indent (plain "正文") body GENERAL para' H).
  - destruct (apply_para_format_returns (indented "1.1 背景") heading2 GENERAL
                360 120 240) as [para' H]; [done|done|by vm_compute|].
    exists para'. split; [exact H|].
    exact (apply_para_format_indent (indented "1.1 背景") heading2 GENERAL
             para' H).
Defined.

(** C10. When the level is Body and the template asks for an indent,
    [apply_para_format] writes [w:firstLine] and leaves [w:firstLineChars] as
    it found it. *)
Theorem apply_para_format_keeps_firstLineChars para template para' :
  first_line_indent template = true →
  apply_para_format para body template = Ok para' →
  ind_attr para' "w:firstLineChars" = ind_attr para "w:firstLineChars"
  ∧ ind_attr para' "w:firstLine"
    = Some (py_str (Z.of_N (sizes template body * 20))).
Proof.
  intros Hind H.
  apply apply_para_format_Ok in H as (? & ? & ? & _ & _ & _ & ->).
  unfold ind_attr. rewrite Hind. cbn [pPr ind mbind option_bind andb].
  rewrite bool_decide_eq_true_2 by done.
  split; [|by simplify_map_eq].
  rewrite lookup_insert_ne by done.
  destruct (pPr para) as [[sp [i|]]|]; by cbn.
Qed.

Lemma apply_para_format_keeps_firstLineChars_witness :
  ∃ para',
    apply_para_format (indented "正文") body GENERAL = Ok para'
    ∧ ind_attr para' "w:firstLineChars" = Some (u "200")
    ∧ ind_attr para' "w:firstLine" = Some (u "420").
Proof.
  destruct (apply_para_format_returns (indented "正文") body GENERAL 0 0 360)
    as [para' H]; [done|done|by vm_compute|].
  exists para'. split; [exact H|].
  exact (apply_para_format_keeps_firstLineChars (indented "正文") GENERAL para'
           eq_refl H).
Defined.

(** ** The configuration file *)

(** C8 (amended). When [config.json] is missing, or is there but cannot be
    read or parsed, [load_config] writes the built-in default set to the file
    and returns it, provided the file can be written; the read failure is
    caught, a failure of the write is not and comes out as the exception. *)
Theorem load_config_fallback (w : World) :
  (∀ c, CONFIG_FILE w ≠ Holds c) →
  load_config w =
    if writable w
    then (Ok DEFAULT_CONFIG,
          {| CONFIG_FILE := Holds DEFAULT_CONFIG; writable := true |})
    else (Raise OSError, w).
Proof.
  intros Hfile. unfold load_config, save_config.
  destruct w as [file [|]]; cbn in *;
    destruct file as [| | |c]; try done; by destruct (Hfile c).
Qed.

Lemma load_config_fallback_witness :
  load_config {| CONFIG_FILE := Corrupt; writable := true |}
  = (Ok DEFAULT_CONFIG,
     {| CONFIG_FILE := Holds DEFAULT_CONFIG; writable := true |}).
Proof.
  refine (load_config_fallback {| CONFIG_FILE := Corrupt; writable := true |} _).
  intros c. discriminate.
Defined.

(** A missing file in a directory that cannot be written: [load_config]
    raises. *)
Lemma load_config_raises :
  load_config {| CONFIG_FILE := Missing; writable := false |}
  = (Raise OSError, {| CONFIG_FILE := Missing; writable := false |}).
Proof. reflexivity. Qed.

(** A file that parses is returned as it is and nothing is written. *)
Lemma load_config_reads c wr :
  load_config {| CONFIG_FILE := Holds c; writable := wr |}
  = (Ok c, {| CONFIG_FILE := Holds c; writable := wr |}).
Proof. reflexivity. Qed.

(** ** The checker *)

(** Inside the size profile both neighbours can be read. *)
Lemma neighbours_Ok (all_sizes : list N) idx :
  (idx < length all_sizes)%nat →
  ∃ p n,
    (if (0 <? idx)%nat then index all_sizes (idx - 1) else Ok 0) = Ok p
    ∧ (if (Z.of_nat idx <? Z.of_nat (length all_sizes) - 1)%Z
       then index all_sizes (idx + 1) else Ok 0) = Ok n.
Proof.
  intros Hidx.
  assert (∃ p, (if (0 <? idx)%nat then index all_sizes (idx - 1) else Ok 0)
               = Ok p) as [p Hp].
  { destruct idx as [|j]; [by eexists|]. cbn [Nat.ltb Nat.leb]. unfold index.
    destruct (lookup_lt_is_Some_2 all_sizes (S j - 1)) as [x ->]; [lia|].
    by eexists. }
  assert (∃ n, (if (Z.of_nat idx <? Z.of_nat (length all_sizes) - 1)%Z
                then index all_sizes (idx + 1) else Ok 0) = Ok n) as [n Hn].
  { destruct (Z.ltb_spec (Z.of_nat idx) (Z.of_nat (length all_sizes) - 1));
      [|by eexists].
    unfold index.
    destruct (lookup_lt_is_Some_2 all_sizes (idx + 1)) as [x ->]; [lia|].
    by eexists. }
  by exists p, n.
Qed.

(** Inside the size profile [detect_level] raises nothing. *)
Lemma detect_level_returns para all_sizes idx :
  (idx < length all_sizes)%nat →
  ∃ l, detect_level para all_sizes idx = Ok l.
Proof.
  intros Hidx. unfold detect_level. cbv zeta.
  repeat (match goal with |- ∃ l, (if ?c then _ else _) = _ => destruct c end;
          [by eexists|]).
  destruct (_ <=? _)%nat; [|by eexists].
  destruct (neighbours_Ok all_sizes idx Hidx) as (p & n & -> & ->).
  cbn [mbind result_bind]. destruct (_ || _); by eexists.
Qed.

(** [get_run_size] reads the size that the run declares. *)
Lemma get_run_size_declared run : get_run_size run = declared_size run.
Proof.
  unfold get_run_size, declared_size.
  destruct (rPr run) as [r|]; [|done]. cbn. by destruct (sz r).
Qed.

(** The test [not para.text.strip() or not para.runs] skips exactly the
    paragraphs that are not examined. *)
Lemma skipped_examined para : skipped para = negb (examined para).
Proof.
  unfold skipped, examined. case_bool_decide as H.
  - destruct H as [Ht Hr].
    by destruct (strip (text para)), (runs para).
  - destruct (strip (text para)) as [|c t], (runs para) as [|r rs]; try done.
    destruct H. by split.
Qed.

(** The loop with [break] reports the first mismatched run and no other. *)
Lemma check_sizes_first runs target_size :
  check_sizes runs target_size =
    match List.find (mismatched target_size) runs with
    | Some run => [SizeMismatch target_size (declared_size run)]
    | None => []
    end.
Proof.
  induction runs as [|run runs IH]; [done|]. cbn [check_sizes List.find].
  unfold mismatched at 1. rewrite get_run_size_declared, IH.
  case_bool_decide as H.
  - destruct H as [H0 Ht].
    apply N.eqb_neq in H0, Ht. by rewrite H0, Ht.
  - destruct (N.eqb_spec (declared_size run) 0) as [H0|H0]; [done|].
    destruct (N.eqb_spec (declared_size run) target_size) as [Ht|Ht]; [done|].
    destruct H. by split.
Qed.

(** The indent check passes exactly when the paragraph has a first-line
    indent. *)
Lemma check_indent_has_first_line para :
  check_indent para = if has_first_line para then [] else [MissingIndent].
Proof.
  unfold check_indent, has_first_line, ind_attr.
  destruct (pPr para) as [p|]; [|done]. cbn [mbind option_bind].
  destruct (ind p) as [i|]; [|done]. cbn [mbind option_bind].
  destruct (i !! "w:firstLine"%string) as [[|c v]|]; done.
Qed.

Lemma expected_problems_one_size template level para :
  (length (List.filter is_size_mismatch (expected_problems template level para))
   ≤ 1)%nat.
Proof.
  unfold expected_problems. rewrite List.filter_app, length_app.
  destruct (List.find _ _); case_bool_decide; cbn; lia.
Qed.

(** What one turn of the checker's loop appends. *)
Lemma check_paragraph_entry template all_sizes i para :
  (i < length all_sizes)%nat →
  check_paragraph template all_sizes i para
  = Ok (expected_entry template all_sizes i para).
Proof.
  intros Hi. destruct (detect_level_returns para all_sizes i Hi) as [l Hl].
  unfold check_paragraph, expected_entry. rewrite skipped_examined.
  destruct (examined para); [|done]. cbn [negb].
  rewrite Hl. cbn [mbind result_bind].
  rewrite check_sizes_first, check_indent_has_first_line.
  assert ((if bool_decide (l = body) && first_line_indent template
           then if has_first_line para then [] else [MissingIndent]
           else [])
          = if bool_decide (l = body ∧ first_line_indent template = true
                            ∧ has_first_line para = false)
            then [MissingIndent] else []) as ->.
  { destruct (decide (l = body)) as [Hb|Hb], (first_line_indent template),
      (has_first_line para);
      rewrite ?(bool_decide_eq_true_2 _ Hb), ?(bool_decide_eq_false_2 _ Hb);
      cbn [andb];
      first [ by rewrite bool_decide_eq_true_2
            | by rewrite bool_decide_eq_false_2 by (by intros (? & ? & ?)) ]. }
  fold (expected_problems template l para).
  by destruct (expected_problems template l para).
Qed.

Lemma check_loop_report template all_sizes paragraphs :
  ∀ i, (i + length paragraphs ≤ length all_sizes)%nat →
  check_loop template all_sizes i paragraphs
  = Ok (omap id (imap (fun j => expected_entry template all_sizes (i + j))
                      paragraphs)).
Proof.
  induction paragraphs as [|para rest IH]; intros i Hi; [done|].
  cbn [length] in Hi. cbn [check_loop imap omap].
  rewrite check_paragraph_entry, IH by lia. cbn [mbind result_bind].
  rewrite Nat.add_0_r.
  assert (imap ((fun j => expected_entry template all_sizes (i + j)) ∘ S) rest
          = imap (fun j => expected_entry template all_sizes (S i + j)) rest)
    as ->.
  { apply imap_ext. intros j p _. cbn. by rewrite Nat.add_succ_r. }
  by destruct (expected_entry template all_sizes i para).
Qed.

(** The entries of a report are those due for the paragraphs. *)
Lemma elem_of_expected_report template doc issue :
  issue ∈ expected_report template doc ↔
  ∃ i para, doc !! i = Some para
    ∧ expected_entry template (para_max_size <$> doc) i para = Some issue.
Proof.
  unfold expected_report. rewrite list_elem_of_omap. split.
  - intros (e & (i & para & -> & Hi)%elem_of_lookup_imap & He).
    by exists i, para.
  - intros (i & para & Hi & He). exists (Some issue). split; [|done].
    apply elem_of_lookup_imap. exists i, para. by rewrite He.
Qed.

(** C7. On a loaded document [check_format] returns the report that is due:
    for every examined paragraph, in the order of the document, the entry
    with one size description for the first run that declares a size other
    than the target of the paragraph's level, none for later runs, and the
    missing indent of a Body paragraph; a paragraph with nothing to report
    has no entry. No entry is empty and none holds more than one size
    description. *)
Theorem check_format_one_size_issue doc template :
  check_format doc template = Ok (expected_report template doc)
  ∧ ∀ issue, issue ∈ expected_report template doc →
      i_issues issue ≠ []
      ∧ (length (List.filter is_size_mismatch (i_issues issue)) ≤ 1)%nat.
Proof.
  split.
  - unfold check_format, expected_report.
    by rewrite check_loop_report by (by rewrite length_fmap).
  - intros issue (i & para & _ & He)%elem_of_expected_report.
    unfold expected_entry in He. destruct (examined para); [|done].
    destruct (detect_level _ _ _) as [l|e]; [|done].
    destruct (expected_problems template l para) as [|p ps] eqn:Ep; [done|].
    injection He as <-. cbn [i_issues]. split; [done|].
    rewrite <- Ep. apply expected_problems_one_size.
Qed.

(** The specification's example: under the target 24 of Heading3, runs of
    sizes 24, 28 and 30 give one entry with the single description for the
    run of size 28. *)
Lemma check_format_one_size_issue_witness :
  check_format [oversized] GENERAL
  = Ok [ {| i_level := heading3; i_text := u "1.1.1 实验结果";
            i_issues := [SizeMismatch 24 28] |} ].
Proof.
  rewrite (proj1 (check_format_one_size_issue [oversized] GENERAL)).
  vm_compute. reflexivity.
Defined.

(** ** Size and boldness in the words of the data model *)

Lemma foldl_max_bounds (l : list N) s :
  s ≤ foldl N.max s l
  ∧ (∀ x, x ∈ l → x ≤ foldl N.max s l)
  ∧ foldl N.max s l ∈ s :: l.
Proof.
  revert s. induction l as [|y l IH]; intros s; cbn [foldl].
  - split; [lia|]. split; [by intros x ?%elem_of_nil|]. apply list_elem_of_here.
  - destruct (IH (N.max s y)) as (H1 & H2 & H3). split; [lia|]. split.
    + intros x [->|Hx]%elem_of_cons; [lia|by apply H2].
    + apply elem_of_cons in H3 as [H3|H3].
      * rewrite H3. destruct (N.max_spec s y) as [[_ ->]|[_ ->]];
          [right; left|left].
      * by do 2 right.
Qed.

(** [para_max_size] computes the size of the paragraph. *)
Lemma para_max_size_largest para : largest_size para (para_max_size para).
Proof.
  unfold largest_size, para_max_size.
  destruct (runs para) as [|r rs]; cbn [fmap list_fmap]; [done|].
  destruct (foldl_max_bounds (get_run_size <$> rs) (get_run_size r))
    as (H1 & H2 & H3).
  split.
  - apply Forall_forall. intros run Hrun. rewrite <- get_run_size_declared.
    apply elem_of_cons in Hrun as [->|Hrun]; [done|].
    apply H2, list_elem_of_fmap. by exists run.
  - change (get_run_size r :: (get_run_size <$> rs))
      with (get_run_size <$> r :: rs) in H3.
    apply list_elem_of_fmap in H3 as (run & Hs & Hr). exists run.
    by rewrite <- get_run_size_declared.
Qed.

Lemma largest_size_unique para m1 m2 :
  largest_size para m1 → largest_size para m2 → m1 = m2.
Proof.
  unfold largest_size. intros [H1 H1'] [H2 H2'].
  destruct (runs para) as [|r rs]; [congruence|].
  destruct H1' as (r1 & Hr1 & <-), H2' as (r2 & Hr2 & <-).
  rewrite Forall_forall in H1, H2.
  specialize (H1 _ Hr2). specialize (H2 _ Hr1). lia.
Qed.

(** What [para_is_bold] tests: some run is marked bold. *)
Lemma para_is_bold_marked para :
  para_is_bold para = true ↔ ∃ run, run ∈ runs para ∧ marked_bold run.
Proof.
  unfold para_is_bold, marked_bold. rewrite existsb_exists. split.
  - intros (run & Hin%list_elem_of_In & Hb). unfold run_is_bold in Hb.
    destruct (rPr run) as [r|] eqn:Er; [|done].
    destruct (b r) as [bb|] eqn:Eb; [|done].
    exists run. split; [done|]. exists bb.
    split; [unfold run_b; by rewrite Er|].
    intros Hv. rewrite Hv in Hb. by vm_compute in Hb.
  - intros (run & Hin & bb & Hb & Hv). exists run.
    split; [by apply list_elem_of_In|]. unfold run_is_bold, run_b in *.
    destruct (rPr run) as [r|]; [|done]. cbn in Hb. rewrite Hb.
    apply negb_true_iff. unfold str_eqb. apply bool_decide_eq_false_2.
    destruct (bb !! "w:val"%string) as [v|]; [|by vm_compute].
    cbn [default from_option id]. intros Heq. apply Hv. by rewrite Heq.
Qed.

(** Every bold run counts for [para_is_bold]; the converse fails for a
    [w:b] that is switched off by "false" or "off". *)
Lemma bold_is_marked para run :
  run ∈ runs para → bold run → para_is_bold para = true.
Proof.
  intros Hin (bb & Hb & Hv). apply para_is_bold_marked.
  exists run. split; [done|]. exists bb. split; [done|].
  intros H0. apply (Hv _ H0). unfold switched_off. set_solver.
Qed.

(** The rule of the specification holds for every paragraph in which no
    [w:b] is switched off by a value other than "0": such a paragraph, not
    empty, of at most 40 characters and without number, is MainTitle exactly
    when it has at most 30 characters and a bold run or a size above the
    sizes of both neighbours, and Body otherwise. *)
Lemma detect_level_unnumbered_spec (doc : Document) idx para
    my_size prev_size next_size :
  let t := strip (text para) in
  doc !! idx = Some para →
  largest_size para my_size →
  match idx with
  | O => prev_size = 0
  | S j => match doc !! j with
           | Some p => largest_size p prev_size
           | None => prev_size = 0
           end
  end →
  match doc !! S idx with
  | Some p => largest_size p next_size
  | None => next_size = 0
  end →
  (∀ run b, run ∈ runs para → run_b run = Some b →
     b !! "w:val"%string ≠ Some (u "false")
     ∧ b !! "w:val"%string ≠ Some (u "off")) →
  t ≠ [] → (length t ≤ 40)%nat →
  Re.match_ RE_HEADING3 t = false →
  Re.match_ RE_HEADING2 t = false →
  Re.match_ RE_HEADING1 t = false →
  (detect_level para (para_max_size <$> doc) idx = Ok main_title
   ∨ detect_level para (para_max_size <$> doc) idx = Ok body)
  ∧ (detect_level para (para_max_size <$> doc) idx = Ok main_title ↔
     (length t ≤ 30)%nat
     ∧ ((∃ run, run ∈ runs para ∧ bold run)
        ∨ (prev_size < my_size ∧ next_size < my_size))).
Proof.
  intros t Hidx Hmy Hprev Hnext Hval Hne Hlen H3 H2 H1.
  rewrite (detect_level_unnumbered doc idx para Hidx Hne Hlen H3 H2 H1).
  fold t.
  assert (my_size = para_max_size para) as ->
    by (eapply largest_size_unique; [done|apply para_max_size_largest]).
  assert (prev_size = match idx with
                      | O => 0
                      | S j => default 0 (para_max_size <$> doc !! j)
                      end) as ->.
  { destruct idx as [|j]; [done|]. destruct (doc !! j) as [p|]; [|done].
    eapply largest_size_unique; [done|apply para_max_size_largest]. }
  assert (next_size = default 0 (para_max_size <$> doc !! S idx)) as ->.
  { destruct (doc !! S idx) as [p|]; [|done].
    eapply largest_size_unique; [done|apply para_max_size_largest]. }
  assert (Hbold : para_is_bold para = true ↔ ∃ run, run ∈ runs para ∧ bold run).
  { split.
    - intros (run & Hin & bb & Hb & Hv)%para_is_bold_marked.
      exists run. split; [done|]. exists bb. split; [done|].
      intros v Hv'. destruct (Hval run bb Hin Hb) as [Hf Ho].
      unfold switched_off. rewrite !elem_of_cons, elem_of_nil.
      intros [->|[->|[->|[]]]]; done.
    - intros (run & Hin & Hb). by eapply bold_is_marked. }
  match goal with |- context [Ok (if ?c then _ else _)] => set (cond := c) end.
  assert (Hc : cond = true ↔
            (length t ≤ 30)%nat
            ∧ ((∃ run, run ∈ runs para ∧ bold run)
               ∨ (match idx with
                  | O => 0
                  | S j => default 0 (para_max_size <$> doc !! j)
                  end < para_max_size para
                  ∧ default 0 (para_max_size <$> doc !! S idx)
                    < para_max_size para))).
  { subst cond.
    by rewrite andb_true_iff, orb_true_iff, andb_true_iff, Nat.leb_le,
      !N.ltb_lt, Hbold. }
  rewrite <- Hc. destruct cond; (split; [by (left + right)|done]).
Qed.

(** C4. The rule fails where the code contradicts its own comment, which
    names bold: the paragraph "致谢" has one run, not bold, its [w:b]
    switched off by "false", and its size 21 lies below the 30 and the 24 of
    its neighbours, so by the rule it is Body; [para_is_bold] compares the
    value with "0" only, takes the run for bold, and [detect_level] answers
    MainTitle. *)
Theorem detect_level_takes_false_for_bold :
  let para := unbold "致谢" 21 in
  unbold_doc !! 1%nat = Some para
  ∧ strip (text para) = u "致谢"
  ∧ Re.match_ RE_HEADING3 (strip (text para)) = false
  ∧ Re.match_ RE_HEADING2 (strip (text para)) = false
  ∧ Re.match_ RE_HEADING1 (strip (text para)) = false
  ∧ (∀ run, run ∈ runs para → ¬ bold run)
  ∧ largest_size para 21
  ∧ (∃ before, unbold_doc !! 0%nat = Some before ∧ largest_size before 30)
  ∧ (∃ after, unbold_doc !! 2%nat = Some after ∧ largest_size after 24)
  ∧ detect_level para (para_max_size <$> unbold_doc) 1 = Ok main_title.
Proof.
  cbv zeta. repeat split; try (by vm_compute).
  - intros run Hrun (bb & Hb & Hv).
    apply list_elem_of_singleton in Hrun as ->. injection Hb as <-.
    apply (Hv (u "false")); [done|]. unfold switched_off. set_solver.
  - repeat constructor. by vm_compute.
  - eexists. split; [apply list_elem_of_here|done].
  - eexists. split; [done|]. split; [repeat constructor; by vm_compute|].
    eexists. split; [apply list_elem_of_here|done].
  - eexists. split; [done|]. split; [repeat constructor; by vm_compute|].
    eexists. split; [apply list_elem_of_here|done].
Qed.

(** ** What formatting leaves alone *)

Lemma py_str_nonempty z : truthy (py_str z) = true.
Proof.
  unfold py_str, NilZero.string_of_int, NilZero.string_of_uint.
  destruct (Z.to_int z) as [d|d]; [|done]. by destruct d.
Qed.

(** [apply_run_format] returns exactly for a run that carries both size
    elements, and then rewrites the four font names and the two sizes. *)
Lemma apply_run_format_Ok run size cf wf run' :
  apply_run_format run size cf wf = Ok run' ↔
  ∃ rPr0 sz0 szCs0,
    rPr run = Some rPr0 ∧ sz rPr0 = Some sz0 ∧ szCs rPr0 = Some szCs0
    ∧ run' =
      {| rPr := Some {|
           rFonts := Some
             (<["w:cs"%string := wf]>
              (<["w:eastAsia"%string := cf]>
               (<["w:hAnsi"%string := wf]>
                (<["w:ascii"%string := wf]> (default ∅ (rFonts rPr0))))));
           sz := Some {| hps_val := Some size |};
           szCs := Some {| hps_val := Some size |};
           b := b rPr0 |};
         r_text := r_text run |}.
Proof.
  unfold apply_run_format, set_size, OxmlElement_of_qn, set_val.
  destruct (rPr run) as [[f [s|] [c|] bb]|];
    cbn [default from_option id sz szCs rFonts b mbind result_bind].
  - split; [intros [= <-]; by eexists _, _, _|].
    by intros (? & ? & ? & [= <-] & _ & _ & ->).
  - split; [done|]. by intros (? & ? & ? & [= <-] & _ & ? & _).
  - split; [done|]. by intros (? & ? & ? & [= <-] & ? & _).
  - split; [done|]. by intros (? & ? & ? & [= <-] & ? & _).
  - split; [done|]. by intros (? & ? & ? & ? & _).
Qed.

(** Otherwise it raises [KeyError], and never anything else. *)
Lemma apply_run_format_Raise run size cf wf e :
  apply_run_format run size cf wf = Raise e ↔
  e = KeyError ∧ ¬ has_both_sizes run.
Proof.
  unfold apply_run_format, set_size, OxmlElement_of_qn, has_both_sizes.
  destruct (rPr run) as [[f [s|] [c|] bb]|];
    cbn [default from_option id sz szCs rFonts b mbind result_bind].
  - split; [done|]. intros [_ H]. destruct H. by eexists _, _, _.
  - split; [intros [= <-]; split; [done|]|by intros [-> _]].
    by intros (? & ? & ? & [= <-] & _ & ?).
  - split; [intros [= <-]; split; [done|]|by intros [-> _]].
    by intros (? & ? & ? & [= <-] & ? & _).
  - split; [intros [= <-]; split; [done|]|by intros [-> _]].
    by intros (? & ? & ? & [= <-] & ? & _).
  - split; [intros [= <-]; split; [done|]|by intros [-> _]].
    by intros (? & ? & ? & ? & _).
Qed.

Lemma apply_run_format_frame run size cf wf run' :
  apply_run_format run size cf wf = Ok run' →
  r_text run' = r_text run
  ∧ run_b run' = run_b run
  ∧ run_is_bold run' = run_is_bold run
  ∧ get_run_size run' = size
  ∧ has_both_sizes run'
  ∧ ∀ name, name ∉ font_names → font_attr run' name = font_attr run name.
Proof.
  intros (r0 & s0 & c0 & Hr & Hs & Hc & ->)%apply_run_format_Ok.
  unfold run_b, run_is_bold, get_run_size, font_attr, has_both_sizes.
  rewrite Hr. cbn [rPr b sz szCs rFonts r_text mbind option_bind hps_val
                   default from_option id].
  repeat split; try done.
  - by eexists _, _, _.
  - intros name Hn. unfold font_names in Hn.
    rewrite !not_elem_of_cons in Hn. destruct Hn as (? & ? & ? & ? & _).
    rewrite !lookup_insert_ne by done.
    by destruct (rFonts r0).
Qed.

(** Setting or removing the same attributes again changes nothing. *)
Lemma insert4_twice (m : attrs) k1 k2 k3 k4 v1 v2 v3 v4 :
  <[k4 := v4]> (<[k3 := v3]> (<[k2 := v2]> (<[k1 := v1]>
    (<[k4 := v4]> (<[k3 := v3]> (<[k2 := v2]> (<[k1 := v1]> m)))))))
  = <[k4 := v4]> (<[k3 := v3]> (<[k2 := v2]> (<[k1 := v1]> m))).
Proof.
  apply map_eq. intros name.
  rewrite !lookup_insert. repeat case_decide; done.
Qed.

Lemma insert1_twice (m : attrs) k v : <[k := v]> (<[k := v]> m) = <[k := v]> m.
Proof.
  apply map_eq. intros name.
  rewrite !lookup_insert. repeat case_decide; done.
Qed.

Lemma delete2_twice (m : attrs) k1 k2 :
  delete k2 (delete k1 (delete k2 (delete k1 m))) = delete k2 (delete k1 m).
Proof.
  apply map_eq. intros name.
  rewrite !lookup_delete. repeat case_decide; done.
Qed.

Lemma apply_run_format_twice run size cf wf run' :
  apply_run_format run size cf wf = Ok run' →
  apply_run_format run' size cf wf = Ok run'.
Proof.
  intros (r0 & s0 & c0 & Hr & Hs & Hc & ->)%apply_run_format_Ok.
  apply apply_run_format_Ok. eexists _, _, _.
  split; [done|]. split; [done|]. split; [done|].
  cbn [rPr sz szCs rFonts b r_text default from_option id].
  by rewrite insert4_twice.
Qed.

Lemma apply_para_format_twice para level template para' :
  apply_para_format para level template = Ok para' →
  apply_para_format para' level template = Ok para'.
Proof.
  intros H. apply apply_para_format_Ok in H
    as (before & after & line & Hb & Ha & Hl & ->).
  apply apply_para_format_Ok. exists before, after, line.
  split; [done|]. split; [done|]. split; [done|].
  cbv zeta. cbn [pPr runs spacing_el ind default from_option id].
  rewrite insert4_twice.
  destruct (_ && _); by rewrite ?insert1_twice, ?delete2_twice.
Qed.

(** ** The converter *)

(** The loop over the runs returns when its body does for every run. *)
Lemma for_each_run_Ok f rs rs' :
  for_each_run f rs = Ok rs' ↔ Forall2 (fun run run' => f run = Ok run') rs rs'.
Proof.
  revert rs'. induction rs as [|run rs IH]; intros rs'; cbn [for_each_run].
  - split; [by intros [= <-]; constructor|by intros ->%Forall2_nil_inv_l].
  - destruct (f run) as [run'|e] eqn:Ef; cbn [mbind result_bind].
    + destruct (for_each_run f rs) as [rest|e] eqn:Er; cbn [mbind result_bind].
      * split.
        -- intros [= <-]. constructor; [done|by apply IH].
        -- intros (r' & rest' & Hr & Hrest%IH & ->)%Forall2_cons_inv_l.
           congruence.
      * split; [done|].
        intros (r' & rest' & Hr & Hrest%IH & ->)%Forall2_cons_inv_l. done.
    + split; [done|].
      intros (r' & rest' & Hr & _)%Forall2_cons_inv_l. congruence.
Qed.


(** The runs as [convert_document] rewrites them for a level. *)
Lemma formatted_runs_frame template l (rs rs' : list Run) :
  Forall2 (fun run run' =>
             apply_run_format run (sizes template l)
               (chinese_font template) (western_font template) = Ok run')
          rs rs' →
  r_text <$> rs' = r_text <$> rs
  ∧ existsb run_is_bold rs' = existsb run_is_bold rs
  ∧ is_nil rs' = is_nil rs
  ∧ Forall (fun run => get_run_size run = sizes template l) rs'
  ∧ Forall has_both_sizes rs
  ∧ Forall2 (fun run run' =>
               apply_run_format run (sizes template l)
                 (chinese_font template) (western_font template) = Ok run')
            rs' rs'.
Proof.
  induction 1 as [|run run' rs rs' Hf _ (IH1 & IH2 & IH3 & IH4 & IH5 & IH6)];
    [by repeat split; constructor|].
  destruct (apply_run_format_frame _ _ _ _ _ Hf) as (Ht & _ & Hb & Hs & _).
  cbn [fmap list_fmap existsb is_nil] in *.
  repeat split; [by f_equal|by f_equal|by constructor| |].
  - constructor; [|done].
    by apply apply_run_format_Ok in Hf as (r0 & s0 & c0 & ? & ? & ? & _);
      eexists _, _, _.
  - constructor; [|done]. by eapply apply_run_format_twice.
Qed.

(** What one turn of the converter's loop does. *)
Lemma convert_paragraph_Ok template all_sizes i para r :
  convert_paragraph template all_sizes i para = Ok r →
  (skipped para = true ∧ r = None)
  ∨ (skipped para = false
     ∧ ∃ l runs' para',
         r = Some (l, para')
         ∧ detect_level para all_sizes i = Ok l
         ∧ Forall2 (fun run run' =>
                      apply_run_format run (sizes template l)
                        (chinese_font template) (western_font template)
                      = Ok run') (runs para) runs'
         ∧ apply_para_format {| pPr := pPr para; runs := runs' |} l template
           = Ok para').
Proof.
  unfold convert_paragraph. destruct (skipped para); [intros [= <-]; by left|].
  destruct (detect_level para all_sizes i) as [l|e]; [|done].
  cbn [mbind result_bind].
  destruct (for_each_run _ (runs para)) as [runs'|e] eqn:Er; [|done].
  cbn [mbind result_bind].
  destruct (apply_para_format _ l template) as [para'|e] eqn:Ef; [|done].
  intros [= <-]. right. split; [done|]. exists l, runs', para'.
  by apply for_each_run_Ok in Er.
Qed.

(** A converted paragraph keeps its text and boldness and is not skipped;
    all its runs have the target size of its level. *)
Lemma converted_paragraph template all_sizes i para l para' :
  convert_paragraph template all_sizes i para = Ok (Some (l, para')) →
  detect_level para all_sizes i = Ok l
  ∧ skipped para = false
  ∧ Forall2 (fun run run' =>
               apply_run_format run (sizes template l)
                 (chinese_font template) (western_font template) = Ok run')
            (runs para) (runs para')
  ∧ text para' = text para
  ∧ skipped para' = false
  ∧ para_is_bold para' = para_is_bold para
  ∧ Forall (fun run => get_run_size run = sizes template l) (runs para')
  ∧ para_max_size para' = sizes template l
  ∧ apply_para_format para' l template = Ok para'.
Proof.
  intros [[_ [=]]|(Hs & l0 & rs' & p0 & [= <- <-] & Hl & Hr & Hf)]%convert_paragraph_Ok.
  pose proof (apply_para_format_twice _ _ _ _ Hf) as Hf2.
  apply apply_para_format_Ok in Hf as (? & ? & ? & _ & _ & _ & Hp).
  cbv zeta in Hp. cbn [runs pPr] in Hp.
  assert (Hruns : runs para' = rs') by (by rewrite Hp).
  clear Hp. subst rs'.
  destruct (formatted_runs_frame template l _ _ Hr)
    as (Ht & Hb & Hn & Hsz & _ & _).
  assert (Htext : text para' = text para) by (unfold text; by rewrite Ht).
  unfold skipped in *. unfold para_is_bold. rewrite Htext, Hn.
  repeat split; try done.
  unfold para_max_size. apply orb_false_elim in Hs as [_ Hs].
  rewrite <- Hn in Hs.
  destruct (runs para') as [|run rs]; [done|].
  inversion_clear Hsz as [|? ? H1 H2]. cbn [fmap list_fmap]. rewrite H1.
  clear Hs Hr Ht Hb Hn H1 Hf2 Htext.
  induction H2 as [|run' rs' H1 H2 IH]; [done|]. cbn [fmap list_fmap foldl].
  by rewrite H1, N.max_id.
Qed.

(** The loop rewrites each paragraph by itself. *)
Lemma convert_loop_paragraphs template all_sizes paragraphs :
  ∀ i paragraphs' log count,
    convert_loop template all_sizes i paragraphs = Ok (paragraphs', log, count) →
    length paragraphs' = length paragraphs
    ∧ ∀ j para, paragraphs !! j = Some para →
        ∃ r, convert_paragraph template all_sizes (i + j) para = Ok r
          ∧ paragraphs' !! j
            = Some match r with Some (_, para') => para' | None => para end.
Proof.
  induction paragraphs as [|para rest IH]; intros i ps' log count H.
  - injection H as <- <- <-. done.
  - cbn [convert_loop] in H.
    destruct (convert_paragraph template all_sizes i para) as [r|e] eqn:Ep;
      [|done].
    cbn [mbind result_bind] in H.
    destruct (convert_loop template all_sizes (S i) rest)
      as [[[rest' log'] count']|e] eqn:El; [|done].
    cbn [mbind result_bind] in H.
    destruct (IH _ _ _ _ El) as [Hlen Hrest].
    assert (ps' = match r with Some (_, para') => para' | None => para end
                  :: rest') as ->.
    { destruct r as [[l para']|]; by injection H as <- _ _. }
    split; [cbn; by rewrite Hlen|].
    intros [|j] p Hj.
    + injection Hj as <-. exists r. by rewrite Nat.add_0_r.
    + rewrite Nat.add_succ_r. by apply Hrest.
Qed.

(** C9. Conversion changes no text and no bold flag: the output has the
    same paragraphs with the same runs, each run with its text, its [w:b]
    and every attribute of its [w:rFonts] other than the four font names as
    they were; a run is bold after conversion exactly when it was before. *)
Theorem convert_document_keeps_text_and_bold doc template doc' log :
  convert_document doc template = Ok (doc', log) →
  length doc' = length doc
  ∧ ∀ i para para', doc !! i = Some para → doc' !! i = Some para' →
      text para' = text para
      ∧ para_is_bold para' = para_is_bold para
      ∧ length (runs para') = length (runs para)
      ∧ ∀ j run run', runs para !! j = Some run → runs para' !! j = Some run' →
          r_text run' = r_text run
          ∧ run_b run' = run_b run
          ∧ (bold run' ↔ bold run)
          ∧ run_is_bold run' = run_is_bold run
          ∧ ∀ name, name ∉ font_names → font_attr run' name = font_attr run name.
Proof.
  unfold convert_document. intros H.
  destruct (convert_loop template (para_max_size <$> doc) 0 doc)
    as [[[ps' log'] count]|e] eqn:El; [|done].
  injection H as <- _. apply convert_loop_paragraphs in El as [Hlen Hps].
  split; [done|]. intros i para para' Hi Hi'.
  destruct (Hps i para Hi) as (r & Hr & Hi''). cbn [Nat.add] in Hr.
  rewrite Hi' in Hi''. injection Hi'' as ->.
  destruct r as [[l p']|].
  2: { do 3 (split; [done|]). intros j run run' Hj Hj'.
       rewrite Hj in Hj'. by injection Hj' as <-. }
  apply converted_paragraph in Hr as (_ & _ & Hruns & Ht & _ & Hb & _).
  split; [done|]. split; [done|].
  split; [symmetry; by eapply Forall2_length|].
  intros j run run' Hj Hj'.
  pose proof (Forall2_lookup_lr _ _ _ _ _ _ Hruns Hj Hj') as Hf.
  destruct (apply_run_format_frame _ _ _ _ _ Hf) as (? & Hb' & ? & _ & _ & ?).
  repeat split; try done; unfold bold; by rewrite Hb'.
Qed.

Lemma convert_document_keeps_text_and_bold_witness :
  ∃ doc' log,
    convert_document mixed_doc GENERAL = Ok (doc', log)
    ∧ length doc' = length mixed_doc
    ∧ ∀ i para para', mixed_doc !! i = Some para → doc' !! i = Some para' →
        text para' = text para ∧ para_is_bold para' = para_is_bold para.
Proof.
  destruct (convert_document mixed_doc GENERAL) as [[doc' log]|e] eqn:E;
    [|vm_compute in E; discriminate].
  exists doc', log. split; [reflexivity|].
  destruct (convert_document_keeps_text_and_bold mixed_doc GENERAL doc' log E)
    as [Hlen H].
  split; [exact Hlen|].
  intros i para para' Hi Hi'. destruct (H i para para' Hi Hi') as (Ht & Hb & _).
  exact (conj Ht Hb).
Defined.

(** ** Converting twice *)

(** The level of a settled paragraph does not depend on the sizes. *)
Lemma detect_level_settled para para' (all_sizes all_sizes' : list N) idx :
  text para' = text para →
  para_is_bold para' = para_is_bold para →
  (idx < length all_sizes)%nat → (idx < length all_sizes')%nat →
  settled para →
  detect_level para' all_sizes' idx = detect_level para all_sizes idx.
Proof.
  intros Ht Hb Hi Hi' Hs. unfold detect_level. cbv zeta. rewrite Ht, Hb.
  unfold settled in Hs. cbv zeta in Hs.
  set (t := strip (text para)) in *.
  destruct (negb (truthy t) || (HEADING_MAX_LEN <? length t)%nat) eqn:E1;
    [done|].
  destruct (Re.match_ RE_HEADING3 t); [done|].
  destruct (Re.match_ RE_HEADING2 t); [done|].
  destruct (Re.match_ RE_HEADING1 t); [done|].
  destruct (length t <=? MAIN_TITLE_MAX_LEN)%nat eqn:E30; [|done].
  apply Nat.leb_le in E30. unfold MAIN_TITLE_MAX_LEN in E30.
  destruct Hs as [H|[H|[H|[H|[H|H]]]]]; try done; try lia.
  - rewrite H in E1. done.
  - apply para_is_bold_marked in H.
    destruct (neighbours_Ok all_sizes idx Hi) as (p & n & -> & ->).
    destruct (neighbours_Ok all_sizes' idx Hi') as (p' & n' & -> & ->).
    cbn [mbind result_bind]. by rewrite H.
Qed.

(** A Body paragraph formatted with an indent passes the indent check. *)
Lemma formatted_body_has_indent para template para' :
  first_line_indent template = true →
  apply_para_format para body template = Ok para' →
  check_indent para' = [].
Proof.
  intros Hind H.
  apply apply_para_format_Ok in H as (? & ? & ? & _ & _ & _ & ->).
  unfold check_indent. rewrite Hind. cbn [pPr ind andb].
  rewrite bool_decide_eq_true_2 by done. rewrite lookup_insert_eq.
  cbn [default from_option id]. by rewrite py_str_nonempty.
Qed.

(** A converted paragraph has nothing to report at its own level. *)
Lemma converted_paragraph_complies template all_sizes i para l para' :
  convert_paragraph template all_sizes i para = Ok (Some (l, para')) →
  expected_problems template l para' = [].
Proof.
  intros (_ & _ & _ & _ & _ & _ & Hsz & _ & Hf)%converted_paragraph.
  unfold expected_problems.
  assert (List.find (mismatched (sizes template l)) (runs para') = None) as ->.
  { induction Hsz as [|run rs H1 _ IH]; [done|]. cbn [List.find].
    unfold mismatched at 1. rewrite get_run_size_declared in H1.
    rewrite bool_decide_eq_false_2; [done|]. by intros [_ ?]. }
  cbn [app]. case_bool_decide as Hl; [|done].
  destruct Hl as (-> & Hind & Hno).
  pose proof (formatted_body_has_indent _ _ _ Hind Hf) as Hc.
  rewrite check_indent_has_first_line, Hno in Hc. done.
Qed.

(** Converting a converted paragraph again, with the level unchanged, gives
    the same paragraph. *)
Lemma convert_paragraph_again template all_sizes all_sizes' i para l para' :
  convert_paragraph template all_sizes i para = Ok (Some (l, para')) →
  detect_level para' all_sizes' i = Ok l →
  convert_paragraph template all_sizes' i para' = Ok (Some (l, para')).
Proof.
  intros (_ & _ & Hr & _ & Hs & _ & _ & _ & Hf)%converted_paragraph Hl.
  unfold convert_paragraph. rewrite Hs, Hl. cbn [mbind result_bind].
  destruct (formatted_runs_frame template l _ _ Hr) as (_ & _ & _ & _ & _ & H2).
  apply for_each_run_Ok in H2. rewrite H2. cbn [mbind result_bind].
  assert ({| pPr := pPr para'; runs := runs para' |} = para') as ->
    by (by destruct para').
  by rewrite Hf.
Qed.

Lemma convert_loop_again template all_sizes all_sizes' paragraphs :
  ∀ i paragraphs' log count,
    convert_loop template all_sizes i paragraphs = Ok (paragraphs', log, count) →
    (∀ j para para', paragraphs !! j = Some para → paragraphs' !! j = Some para' →
       detect_level para' all_sizes' (i + j)
       = detect_level para all_sizes (i + j)) →
    convert_loop template all_sizes' i paragraphs' = Ok (paragraphs', log, count).
Proof.
  induction paragraphs as [|para rest IH]; intros i ps' log count H Hst.
  - by injection H as <- <- <-.
  - cbn [convert_loop] in H.
    destruct (convert_paragraph template all_sizes i para) as [r|e] eqn:Ep;
      [|done].
    cbn [mbind result_bind] in H.
    destruct (convert_loop template all_sizes (S i) rest)
      as [[[rest' log'] count']|e] eqn:El; [|done].
    cbn [mbind result_bind] in H.
    destruct r as [[l para']|]; injection H as <- <- <-.
    + assert (Hrest : convert_loop template all_sizes' (S i) rest'
                      = Ok (rest', log', count')).
      { apply (IH _ _ _ _ El). intros j p p' Hj Hj'.
        specialize (Hst (S j) p p' Hj Hj'). by rewrite Nat.add_succ_r in Hst. }
      pose proof (Hst 0%nat para para' eq_refl eq_refl) as H0.
      rewrite Nat.add_0_r in H0.
      pose proof Ep as (Hl & _)%converted_paragraph. rewrite Hl in H0.
      cbn [convert_loop].
      rewrite (convert_paragraph_again _ _ _ _ _ _ _ Ep H0).
      cbn [mbind result_bind]. by rewrite Hrest.
    + assert (Hrest : convert_loop template all_sizes' (S i) rest'
                      = Ok (rest', log', count')).
      { apply (IH _ _ _ _ El). intros j p p' Hj Hj'.
        specialize (Hst (S j) p p' Hj Hj'). by rewrite Nat.add_succ_r in Hst. }
      apply convert_paragraph_Ok in Ep as [[Hs _]|(_ & ? & ? & ? & [=] & _)].
      cbn [convert_loop]. unfold convert_paragraph. rewrite Hs.
      cbn [mbind result_bind]. by rewrite Hrest.
Qed.

(** C1 (amended). Let [out] be the document that [convert_document] saves.
    Classifying [out] gives the level of the first run to every paragraph
    that the text or the boldness settles. If it gives the level of the
    first run to every paragraph, then [check_format] finds nothing to
    report in [out] and converting [out] again returns [out] unchanged, with
    the same log. *)
Theorem convert_twice doc template out log :
  convert_document doc template = Ok (out, log) →
  (∀ i para para', doc !! i = Some para → out !! i = Some para' →
     settled para →
     detect_level para' (para_max_size <$> out) i
     = detect_level para (para_max_size <$> doc) i)
  ∧ (same_levels doc out →
     check_format out template = Ok []
     ∧ convert_document out template = Ok (out, log)).
Proof.
  unfold convert_document. intros H.
  destruct (convert_loop template (para_max_size <$> doc) 0 doc)
    as [[[ps' log'] count]|e] eqn:El; [|done].
  injection H as <- <-.
  pose proof (convert_loop_paragraphs _ _ _ _ _ _ _ El) as [Hlen Hps].
  assert (Hpara : ∀ i para para', doc !! i = Some para → ps' !! i = Some para' →
            (skipped para = true ∧ para' = para)
            ∨ ∃ l, convert_paragraph template (para_max_size <$> doc) i para
                   = Ok (Some (l, para'))).
  { intros i para para' Hi Hi'. destruct (Hps i para Hi) as (r & Hr & Hi'').
    cbn [Nat.add] in Hr. rewrite Hi' in Hi''. injection Hi'' as ->.
    destruct r as [[l p']|]; [right; by exists l|left].
    by apply convert_paragraph_Ok in Hr as [[? _]|(_ & ? & ? & ? & [=] & _)]. }
  split.
  - intros i para para' Hi Hi' Hs.
    pose proof (lookup_lt_Some _ _ _ Hi) as Hlt.
    assert (text para' = text para ∧ para_is_bold para' = para_is_bold para)
      as [Ht Hb].
    { destruct (Hpara i para para' Hi Hi') as [[_ ->]|[l Hc]]; [done|].
      by apply converted_paragraph in Hc as (_ & _ & _ & ? & _ & ? & _). }
    apply detect_level_settled; rewrite ?length_fmap; try done. lia.
  - intros Hst. split.
    + unfold check_format.
      rewrite check_loop_report by (by rewrite length_fmap).
      f_equal. apply elem_of_nil_inv. intros issue.
      intros (e & (j & para' & -> & Hj')%elem_of_lookup_imap & He)%list_elem_of_omap.
      cbn [Nat.add id] in He.
      destruct (lookup_lt_is_Some_2 doc j) as [para Hj];
        [rewrite <- Hlen; by eapply lookup_lt_Some|].
      unfold expected_entry in He. rewrite <- (negb_involutive (examined para')),
        <- skipped_examined in He.
      destruct (Hpara j para para' Hj Hj') as [[Hs ->]|[l Hconv]];
        [by rewrite Hs in He|].
      pose proof Hconv as (Hl & _ & _ & _ & Hs' & _)%converted_paragraph.
      rewrite Hs' in He. cbn [negb] in He.
      rewrite (Hst j para para' Hj Hj'), Hl in He.
      by rewrite (converted_paragraph_complies _ _ _ _ _ _ Hconv) in He.
    + erewrite convert_loop_again; [done|exact El|].
      intros j para para' Hj Hj'. cbn [Nat.add]. by apply Hst.
Qed.

(** In the specification's scenario every paragraph is settled by its text;
    the output passes the check and a second conversion returns it as it
    is. *)
Lemma convert_twice_witness :
  ∃ out log,
    convert_document scenario_doc GENERAL = Ok (out, log)
    ∧ same_levels scenario_doc out
    ∧ check_format out GENERAL = Ok []
    ∧ convert_document out GENERAL = Ok (out, log).
Proof.
  destruct (convert_document scenario_doc GENERAL) as [[out log]|e] eqn:E;
    [|vm_compute in E; discriminate].
  exists out, log. split; [reflexivity|].
  destruct (convert_twice scenario_doc GENERAL out log E) as [Hsettled Hsame].
  assert (Hst : same_levels scenario_doc out).
  { intros i para para' Hi Hi'. apply (Hsettled i para para' Hi Hi').
    destruct i as [|[|[|i]]]; try discriminate Hi;
      injection Hi as <-; unfold settled; cbv zeta;
      first [ right; left; apply Nat.ltb_lt; vm_compute; reflexivity
            | do 2 right; left; vm_compute; reflexivity
            | do 3 right; left; vm_compute; reflexivity
            | do 4 right; left; vm_compute; reflexivity ]. }
  split; [exact Hst|]. exact (Hsame Hst).
Defined.

(** Idempotence fails on [title_doc]. Its first paragraph, not bold, is
    MainTitle in the first run, where its size 40 exceeds the 0 before and
    the 30 after; the bold line after it is MainTitle too, both are written
    with size 32, and in the output the first paragraph is no peak and
    hence Body. [check_format] then reports the MainTitle size against the
    Body target, and the indent that a MainTitle does not get. *)
Lemma reconversion_changes_level :
  ∃ out log title second,
    convert_document title_doc GENERAL = Ok (out, log)
    ∧ out = [title; second]
    ∧ detect_level (styled "论文格式研究" 40 false)
        (para_max_size <$> title_doc) 0 = Ok main_title
    ∧ detect_level title (para_max_size <$> out) 0 = Ok body
    ∧ check_format out GENERAL
      = Ok [ {| i_level := body; i_text := u "论文格式研究";
                i_issues := [SizeMismatch 21 32; MissingIndent] |} ].
Proof.
  destruct (convert_document title_doc GENERAL) as [[out log]|e] eqn:E;
    [|vm_compute in E; discriminate].
  vm_compute in E. injection E as <- <-.
  eexists _, _, _, _. split; [reflexivity|]. split; [reflexivity|].
  split; [by vm_compute|]. split; by vm_compute.
Qed.

(** The specification's scenario: Heading1, Body and Heading2, and on the
    Body paragraph the indent 420 and the line spacing 360. *)
Lemma scenario :
  ∃ p1 p2 p3,
    convert_document scenario_doc GENERAL
    = Ok ([p1; p2; p3],
          [Processed heading1 (u "第一章 引言");
           Processed body
             (u "这是一段很长的正文，用来说明正文段落在转换之后的格式，共三十五个字符。");
           Processed heading2 (u "1.1 背景");
           Finished 3])
    ∧ ind_attr p2 "w:firstLine" = Some (u "420")
    ∧ spacing_attr p2 "w:line" = Some (u "360")
    ∧ declared_size <$> runs p1 = [30]
    ∧ declared_size <$> runs p2 = [21]
    ∧ declared_size <$> runs p3 = [28].
Proof.
  destruct (convert_document scenario_doc GENERAL) as [[out log]|e] eqn:E;
    [|vm_compute in E; discriminate].
  vm_compute in E. injection E as <- <-.
  eexists _, _, _. split; [by vm_compute|]. by vm_compute.
Qed.

(** Typed without run properties the same scenario is not converted: the
    first run has no [w:sz], and creating one raises [KeyError]. *)
Lemma scenario_unstyled : convert_document unstyled_doc GENERAL = Raise KeyError.
Proof. by vm_compute. Qed.

(** ** More on the matcher and the numbering rules *)

Lemma is_digit_range c :
  is_digit c ↔ (48 ≤ c ∧ c ≤ 57) ∨ (65296 ≤ c ∧ c ≤ 65305).
Proof.
  unfold is_digit, Re.in_class, digits. cbn [existsb Re.in_item].
  change (ch "0") with 48. change (ch "9") with 57.
  change (ch "０") with 65296. change (ch "９") with 65305.
  rewrite !orb_true_iff, !andb_true_iff, !N.leb_le. intuition (try lia; done).
Qed.

Lemma is_dot_chars c : is_dot c ↔ c = 46 ∨ c = 12290.
Proof.
  unfold is_dot, Re.in_class, dots. cbn [existsb Re.in_item].
  change (ch ".") with 46. change (ch "。") with 12290.
  rewrite !orb_true_iff, !N.eqb_eq. intuition done.
Qed.

Lemma digit_not_dot c : is_digit c → Re.in_class dots c = false.
Proof.
  intros Hd%is_digit_range. apply not_true_is_false.
  intros [-> | ->]%is_dot_chars; lia.
Qed.

Lemma dot_not_digit c : is_dot c → Re.in_class digits c = false.
Proof.
  intros Hd%is_dot_chars. apply not_true_is_false.
  intros H%is_digit_range. lia.
Qed.

Lemma is_numeral_chars c : is_numeral c → c ∈ u "一二三四五六七八九十百".
Proof.
  unfold is_numeral, Re.in_class, numerals.
  intros (i & Hin & Hi)%existsb_exists.
  apply list_elem_of_In, list_elem_of_fmap in Hin as (d & -> & Hd).
  cbn [Re.in_item] in Hi. by apply N.eqb_eq in Hi as ->.
Qed.

Lemma numeral_not_digit c : is_numeral c → Re.in_class digits c = false.
Proof.
  intros Hc%is_numeral_chars. apply not_true_is_false.
  intros H%is_digit_range. vm_compute in Hc.
  repeat (apply elem_of_cons in Hc as [-> | Hc]; [lia|]).
  by apply elem_of_nil in Hc.
Qed.

Lemma separator_not_digit c : is_separator c → Re.in_class digits c = false.
Proof.
  unfold is_separator, Re.in_class. cbn [existsb Re.in_item]. unfold isspace.
  change (ch "　") with 12288. change (ch ".") with 46.
  change (ch "。") with 12290. change (ch "、") with 12289.
  rewrite !orb_true_iff, !andb_true_iff, !N.leb_le, !N.eqb_eq.
  intros H. apply not_true_is_false. intros Hd%is_digit_range. lia.
Qed.

(** Where a greedy repetition can stop: after some of the characters of a
    run of its class that ends the text or ends at a character outside the
    class. *)
Lemma more_stops cls (k : Re.cont) ds s pos :
  Forall (fun c => Re.in_class cls c = true) ds →
  match s with [] => True | c :: _ => Re.in_class cls c = false end →
  Re.more cls k pos (ds ++ s) = true →
  ∃ i, (i ≤ length ds)%nat ∧ k (pos + i)%nat (drop i ds ++ s) = true.
Proof.
  intros Hds Hs. revert pos. induction Hds as [|c ds Hc _ IH]; intros pos H.
  - exists 0%nat. split; [done|]. rewrite Nat.add_0_r.
    destruct s as [|c s]; [done|]. cbn in H. by rewrite Hs in H.
  - cbn in H. rewrite Hc in H. apply orb_true_iff in H as [H|H].
    + destruct (IH _ H) as (i & Hi & Hk). exists (S i). split; [cbn; lia|].
      by rewrite Nat.add_succ_r.
    + exists 0%nat. split; [cbn; lia|]. by rewrite Nat.add_0_r.
Qed.

(** The common beginning of the two- and three-level patterns: digits, a
    dot and digits, then whatever [k] asks for. It can only match with the
    first repetition taking the whole first run of digits. *)
Lemma number_dot_number (k : Re.cont) d1 s :
  Forall is_digit d1 → d1 ≠ [] →
  match s with [] => True | c :: _ => Re.in_class digits c = false end →
  Re.run (Re.Plus digits) (Re.run (Re.Set_ dots) (Re.run (Re.Plus digits) k))
         0 (d1 ++ s)
  = match s with
    | p :: s' => Re.in_class dots p
                 && Re.run (Re.Plus digits) k (S (length d1)) s'
    | [] => false
    end.
Proof.
  intros Hd1 Hn1 Hs. destruct d1 as [|a d1]; [done|].
  inversion_clear Hd1 as [|? ? Ha Hd1'].
  apply eq_true_iff_eq. split.
  - cbn [Re.run app]. unfold is_digit in Ha. rewrite Ha, andb_true_l.
    intros H. destruct (more_stops digits _ d1 s 1 Hd1' Hs H) as (i & Hi & Hk).
    destruct (decide (i = length d1)) as [->|Hne].
    + rewrite drop_all in Hk. cbn [app] in Hk. destruct s as [|p s']; [done|].
      exact Hk.
    + destruct (lookup_lt_is_Some_2 d1 i) as [c Hc]; [lia|].
      rewrite (drop_S _ _ _ Hc) in Hk. cbn [app] in Hk.
      rewrite digit_not_dot in Hk; [done|].
      by eapply (Forall_lookup_1 _ _ _ _ Hd1').
  - destruct s as [|p s']; [done|]. intros H.
    change ((a :: d1) ++ p :: s') with ((a :: d1) ++ (p :: s')).
    apply (plus_reach digits); [by constructor|].
    exact H.
Qed.

Lemma plus_stops cls (k : Re.cont) ds s pos :
  Forall (fun c => Re.in_class cls c = true) ds →
  match s with [] => True | c :: _ => Re.in_class cls c = false end →
  Re.run (Re.Plus cls) k pos (ds ++ s) = true →
  ∃ i, (1 ≤ i ≤ length ds)%nat ∧ k (pos + i)%nat (drop i ds ++ s) = true.
Proof.
  intros Hds Hs H. destruct ds as [|a ds].
  - destruct s as [|c s]; [done|]. cbn in H. by rewrite Hs in H.
  - inversion_clear Hds as [|? ? Ha Hds']. cbn in H.
    apply andb_true_iff in H as [_ H].
    destruct (more_stops cls k ds s (S pos) Hds' Hs H) as (i & Hi & Hk).
    exists (S i). split; [cbn; lia|]. by rewrite Nat.add_succ_r.
Qed.

Lemma plus_no_start cls (k : Re.cont) pos s :
  match s with [] => True | c :: _ => Re.in_class cls c = false end →
  Re.run (Re.Plus cls) k pos s = false.
Proof. destruct s as [|c s]; [done|]. intros H. cbn. by rewrite H. Qed.

(** The two patterns as the matcher runs them. *)
Lemma heading3_run t :
  Re.match_ RE_HEADING3 t =
    Re.run (Re.Plus digits)
      (Re.run (Re.Set_ dots)
         (Re.run (Re.Plus digits)
            (Re.run (Re.Set_ dots)
               (Re.run (Re.Plus digits) (fun _ _ => true))))) 0 t.
Proof. reflexivity. Qed.

Lemma heading2_run t :
  Re.match_ RE_HEADING2 t =
    Re.run (Re.Plus digits)
      (Re.run (Re.Set_ dots)
         (Re.run (Re.Plus digits)
            (Re.run (Re.NotAhead (Re.Cat (Re.Set_ dots) (Re.Set_ digits)))
               (fun _ _ => true)))) 0 t.
Proof. reflexivity. Qed.

Lemma no_digit_next_head rest :
  no_digit_next rest →
  match rest with [] => True | c :: _ => Re.in_class digits c = false end.
Proof. destruct rest as [|c rest]; [done|]. cbn. by intros ?%not_true_is_false. Qed.

(** A text that does not begin with digits, a dot and a digit matches
    neither the two-level nor the three-level pattern. *)
Lemma not_numbered_twice t :
  (match t with [] => True | c :: _ => Re.in_class digits c = false end
   ∨ ∃ d c rest, t = d ++ c :: rest ∧ d ≠ [] ∧ Forall is_digit d
       ∧ Re.in_class digits c = false
       ∧ (is_dot c → no_digit_next rest)) →
  Re.match_ RE_HEADING3 t = false ∧ Re.match_ RE_HEADING2 t = false.
Proof.
  rewrite heading3_run, heading2_run. intros [H|(d & c & rest & -> & Hn & Hd & Hc & Hr)].
  - by rewrite !plus_no_start.
  - rewrite !number_dot_number by done.
    destruct (Re.in_class dots c) eqn:Ec; [|done]. cbn [andb].
    rewrite !plus_no_start; [done| |]; by apply no_digit_next_head, Hr.
Qed.

Lemma detect_level_heading2 para all_sizes idx :
  let t := strip (text para) in
  t ≠ [] → (length t ≤ 40)%nat →
  Re.match_ RE_HEADING3 t = false → Re.match_ RE_HEADING2 t = true →
  detect_level para all_sizes idx = Ok heading2.
Proof.
  intros t Hne Hlen H3 H2. unfold detect_level. cbv zeta. fold t.
  destruct t as [|c t'] eqn:Et; [done|].
  apply Nat.ltb_ge in Hlen. unfold HEADING_MAX_LEN.
  by rewrite Hlen, H3, H2.
Qed.

Lemma detect_level_heading1 para all_sizes idx :
  let t := strip (text para) in
  t ≠ [] → (length t ≤ 40)%nat →
  Re.match_ RE_HEADING3 t = false → Re.match_ RE_HEADING2 t = false →
  Re.match_ RE_HEADING1 t = true →
  detect_level para all_sizes idx = Ok heading1.
Proof.
  intros t Hne Hlen H3 H2 H1. unfold detect_level. cbv zeta. fold t.
  destruct t as [|c t'] eqn:Et; [done|].
  apply Nat.ltb_ge in Hlen. unfold HEADING_MAX_LEN.
  by rewrite Hlen, H3, H2, H1.
Qed.

(** X1. A paragraph whose trimmed text has at most 40 characters and begins
    with a two-level number, digits, a dot and digits with no further digit
    and no dot and digit behind, is Heading2, whatever its runs, the size
    profile and the index. *)
Theorem detect_level_two_level para all_sizes idx :
  let t := strip (text para) in
  two_level t → (length t ≤ 40)%nat →
  detect_level para all_sizes idx = Ok heading2.
Proof.
  intros t (d1 & p & d2 & rest & Ht & Hn1 & Hd1 & Hp & Hn2 & Hd2 & Hr & Hr')
    Hlen.
  assert (Hne : t ≠ []) by (rewrite Ht; by destruct d1).
  assert (Hp' := dot_not_digit p Hp).
  assert (Hrest := no_digit_next_head rest Hr).
  apply detect_level_heading2; try done; fold t; rewrite Ht.
  - rewrite heading3_run, number_dot_number by done.
    unfold is_dot in Hp. rewrite Hp, andb_true_l.
    apply not_true_is_false.
    intros (i & Hi & Hk)%plus_stops; [|done|done].
    destruct (decide (i = length d2)) as [->|Hne'].
    + rewrite drop_all in Hk. cbn [app] in Hk.
      destruct rest as [|c rest']; [done|]. cbn [Re.run] in Hk.
      apply andb_true_iff in Hk as [Hc Hk].
      specialize (Hr' Hc). destruct rest' as [|c' rest'']; [done|].
      apply andb_true_iff in Hk as [Hk _]. by destruct Hr'.
    + destruct (lookup_lt_is_Some_2 d2 i) as [c Hc]; [lia|].
      rewrite (drop_S _ _ _ Hc) in Hk. cbn [app Re.run] in Hk.
      rewrite digit_not_dot in Hk; [done|].
      by eapply (Forall_lookup_1 _ _ _ _ Hd2).
  - rewrite heading2_run, number_dot_number by done.
    unfold is_dot in Hp. rewrite Hp, andb_true_l.
    destruct d2 as [|a d2]; [done|].
    apply (plus_reach digits); [done|].
    cbn [Re.run]. rewrite andb_true_r. apply negb_true_iff.
    destruct rest as [|c rest']; [done|].
    destruct (Re.in_class dots c) eqn:Ec; [|done]. cbn [andb].
    specialize (Hr' Ec). destruct rest' as [|c' rest'']; [done|].
    cbn in Hr'. apply not_true_is_false in Hr'. by rewrite Hr'.
Qed.

Lemma detect_level_two_level_witness :
  two_level (strip (text (plain "３。１０ 数据来源")))
  ∧ detect_level (plain "３。１０ 数据来源") [] 7 = Ok heading2.
Proof.
  assert (H2 : two_level (strip (text (plain "３。１０ 数据来源")))).
  { exists [65299], 12290, [65297; 65296], (u " 数据来源").
    repeat split; try done; repeat constructor; by vm_compute. }
  split; [exact H2|].
  refine (detect_level_two_level (plain "３。１０ 数据来源") [] 7 H2 _).
  apply Nat.leb_le. vm_compute. reflexivity.
Defined.

Lemma run_chr d (k : Re.cont) pos s :
  Re.run (Re.Chr d) k pos (d :: s) = k (S pos) s.
Proof. cbn. by rewrite N.eqb_refl. Qed.

Lemma run_set cls (k : Re.cont) pos c s :
  Re.run (Re.Set_ cls) k pos (c :: s) = Re.in_class cls c && k (S pos) s.
Proof. reflexivity. Qed.

Lemma in_class_app a b c :
  Re.in_class (a ++ b) c = Re.in_class a c || Re.in_class b c.
Proof. apply existsb_app. Qed.

Lemma heading1_run t :
  Re.match_ RE_HEADING1 t =
    Re.run (Re.Plus digits)
      (Re.run (Re.Set_ [Re.Space; Re.One (ch "　"); Re.One (ch ".");
                        Re.One (ch "。"); Re.One (ch "、")])
         (fun _ _ => true)) 0 t
    || (Re.run (Re.Plus numerals)
          (Re.run (Re.Set_ [Re.One (ch "、"); Re.One (ch ".")])
             (fun _ _ => true)) 0 t
        || Re.run (Re.Chr (ch "第"))
             (Re.run (Re.Plus (numerals ++ [Re.Range (ch "0") (ch "9")]))
                (Re.run (Re.Set_ (Re.One <$> u "章节部篇"))
                   (fun _ _ => true))) 0 t).
Proof. reflexivity. Qed.

Lemma one_level_digits para all_sizes idx d c rest :
  let t := strip (text para) in
  t = d ++ c :: rest → d ≠ [] → Forall is_digit d → is_separator c →
  (is_dot c → no_digit_next rest) → (length t ≤ 40)%nat →
  detect_level para all_sizes idx = Ok heading1.
Proof.
  intros t Ht Hn Hd Hc Hr Hlen.
  assert (Hne : t ≠ []) by (rewrite Ht; by destruct d).
  destruct (not_numbered_twice t) as [H3 H2].
  { right. exists d, c, rest. by rewrite (separator_not_digit c Hc). }
  apply detect_level_heading1; [exact Hne|exact Hlen|exact H3|exact H2|].
  fold t. rewrite heading1_run, Ht. apply orb_true_iff. left.
  destruct d as [|a d]; [done|]. apply (plus_reach digits); [exact Hd|].
  cbn [Re.run]. unfold is_separator in Hc. rewrite Hc. reflexivity.
Qed.

Lemma one_level_numerals para all_sizes idx a ns c rest :
  let t := strip (text para) in
  t = (a :: ns) ++ c :: rest → Forall is_numeral (a :: ns) →
  c = ch "、" ∨ c = ch "." → (length t ≤ 40)%nat →
  detect_level para all_sizes idx = Ok heading1.
Proof.
  intros t Ht Hns Hc Hlen.
  assert (Hne : t ≠ []) by (by rewrite Ht).
  assert (Ha : is_numeral a) by (by inversion_clear Hns).
  destruct (not_numbered_twice t) as [H3 H2].
  { left. rewrite Ht. exact (numeral_not_digit a Ha). }
  apply detect_level_heading1; [exact Hne|exact Hlen|exact H3|exact H2|].
  fold t. rewrite heading1_run, Ht. apply orb_true_iff. right.
  apply orb_true_iff. left.
  apply (plus_reach numerals); [exact Hns|]. cbn [Re.run].
  destruct Hc as [-> | ->]; vm_compute; reflexivity.
Qed.

Lemma one_level_chapter para all_sizes idx a ns c rest :
  let t := strip (text para) in
  t = ch "第" :: (a :: ns) ++ c :: rest →
  Forall (fun c => is_numeral c ∨ (ch "0" ≤ c ∧ c ≤ ch "9")) (a :: ns) →
  c ∈ u "章节部篇" → (length t ≤ 40)%nat →
  detect_level para all_sizes idx = Ok heading1.
Proof.
  intros t Ht Hns Hc Hlen.
  assert (Hne : t ≠ []) by (by rewrite Ht).
  destruct (not_numbered_twice t) as [H3 H2].
  { left. rewrite Ht. vm_compute. reflexivity. }
  apply detect_level_heading1; [exact Hne|exact Hlen|exact H3|exact H2|].
  fold t. rewrite heading1_run, Ht. apply orb_true_iff. right.
  apply orb_true_iff. right.
  rewrite run_chr.
  apply (plus_reach (numerals ++ [Re.Range (ch "0") (ch "9")])).
  - eapply Forall_impl; [exact Hns|]. intros x Hx. cbv beta in Hx.
    rewrite in_class_app. apply orb_true_iff.
    destruct Hx as [Hx|[Hx1 Hx2]]; [left; exact Hx|right].
    apply N.leb_le in Hx1, Hx2. unfold Re.in_class.
    cbn [existsb Re.in_item]. rewrite Hx1, Hx2. reflexivity.
  - rewrite run_set, andb_true_r. unfold Re.in_class.
    apply existsb_exists. exists (Re.One c). split; [|apply N.eqb_refl].
    apply list_elem_of_In, list_elem_of_fmap. by exists c.
Qed.

(** X2. A paragraph whose trimmed text has at most 40 characters and begins
    with a one-level number in one of its three forms is Heading1, whatever
    its runs, the size profile and the index. *)
Theorem detect_level_one_level para all_sizes idx :
  let t := strip (text para) in
  one_level t → (length t ≤ 40)%nat →
  detect_level para all_sizes idx = Ok heading1.
Proof.
  intros t Ht Hlen.
  destruct Ht as [(d & c & rest & Ht & Hn & Hd & Hc & Hr)
                 |[(ns & c & rest & Ht & Hn & Hns & Hc)
                  |(ns & c & rest & Ht & Hn & Hns & Hc)]].
  - by eapply one_level_digits.
  - destruct ns as [|a ns]; [done|]. by eapply one_level_numerals.
  - destruct ns as [|a ns]; [done|]. by eapply one_level_chapter.
Qed.

Lemma detect_level_one_level_witness :
  one_level (strip (text (plain "第12章 总结与展望")))
  ∧ detect_level (plain "第12章 总结与展望") [] 3 = Ok heading1.
Proof.
  assert (H1 : one_level (strip (text (plain "第12章 总结与展望")))).
  { right. right. exists [49; 50], 31456, (u " 总结与展望").
    split; [by vm_compute|]. split; [done|]. split.
    - repeat (constructor; [right; by vm_compute|]). constructor.
    - vm_compute. set_solver. }
  split; [exact H1|].
  refine (detect_level_one_level (plain "第12章 总结与展望") [] 3 H1 _).
  apply Nat.leb_le. vm_compute. reflexivity.
Defined.

(** X3. The look-ahead of the two-level pattern keeps a three-level number
    out only when its second component is a single digit: with two or more
    digits there the pattern matches, whatever follows, because the
    repetition gives back a digit. *)
Theorem heading2_pattern_exclusion d1 p1 a rest :
  d1 ≠ [] → Forall is_digit d1 → is_dot p1 → is_digit a →
  (∀ p2 c, is_dot p2 → is_digit c →
     Re.match_ RE_HEADING2 (d1 ++ p1 :: a :: p2 :: c :: rest) = false)
  ∧ (∀ a', is_digit a' →
     Re.match_ RE_HEADING2 (d1 ++ p1 :: a :: a' :: rest) = true).
Proof.
  intros Hn Hd Hp Ha. assert (Hp' := dot_not_digit p1 Hp). unfold is_dot in Hp.
  split.
  - intros p2 c Hp2 Hc. rewrite heading2_run, number_dot_number by done.
    rewrite Hp, andb_true_l. cbn [Re.run Re.more].
    rewrite (dot_not_digit p2 Hp2). cbn [Re.run].
    unfold is_digit in Ha, Hc. unfold is_dot in Hp2. by rewrite Ha, Hp2, Hc.
  - intros a' Ha'. rewrite heading2_run, number_dot_number by done.
    rewrite Hp, andb_true_l.
    change (a :: a' :: rest) with ([a] ++ a' :: rest).
    apply (plus_reach digits); [by repeat constructor|].
    cbn [Re.run]. by rewrite (digit_not_dot a' Ha').
Qed.

Lemma heading2_pattern_exclusion_witness :
  Re.match_ RE_HEADING2 (u "2.1.3 方法") = false
  ∧ Re.match_ RE_HEADING2 (u "2.10.3 方法") = true.
Proof.
  assert (H : [50] ≠ [] ∧ Forall is_digit [50] ∧ is_dot 46 ∧ is_digit 49).
  { repeat split; try done; repeat constructor. }
  destruct H as (Hn & Hd & Hp & Ha). split.
  - refine (proj1 (heading2_pattern_exclusion [50] 46 49 (u " 方法") Hn Hd Hp Ha)
              46 51 _ _); reflexivity.
  - refine (proj2 (heading2_pattern_exclusion [50] 46 49 (u ".3 方法") Hn Hd Hp Ha)
              48 _); reflexivity.
Defined.


(** ** More on sizes, boldness and the applicator *)

(** X5. [para_max_size] is the size of the paragraph and nothing else: the
    largest size a run declares, attained by some run, and 0 without
    runs. *)
Theorem para_max_size_is_largest para m :
  largest_size para m ↔ m = para_max_size para.
Proof.
  split.
  - intros H. eapply largest_size_unique; [exact H|apply para_max_size_largest].
  - intros ->. apply para_max_size_largest.
Qed.

(** X6. A paragraph that reaches the comparison of sizes and has a bold run
    is MainTitle whatever the sizes are, at every index up to the length of
    the size profile. *)
Theorem detect_level_bold_title para all_sizes idx run :
  reaches_size_test para → run ∈ runs para → bold run →
  (idx ≤ length all_sizes)%nat →
  detect_level para all_sizes idx = Ok main_title.
Proof.
  intros (Hne & Hlen & H3 & H2 & H1) Hin Hb Hidx.
  pose proof (bold_is_marked para run Hin Hb) as Hbold.
  unfold detect_level. cbv zeta.
  destruct (strip (text para)) as [|c t] eqn:Et; [done|]. rewrite <- Et in *.
  rewrite H3, H2, H1, Hbold.
  assert ((HEADING_MAX_LEN <? length (strip (text para)))%nat = false) as ->.
  { apply Nat.ltb_ge. unfold HEADING_MAX_LEN. lia. }
  assert ((length (strip (text para)) <=? MAIN_TITLE_MAX_LEN)%nat = true) as ->.
  { by apply Nat.leb_le. }
  rewrite Et at 1. cbn [truthy negb orb].
  assert (∃ p, (if (0 <? idx)%nat then index all_sizes (idx - 1) else Ok 0)
               = Ok p) as [p ->].
  { destruct idx as [|j]; [by eexists|]. cbn [Nat.ltb Nat.leb]. unfold index.
    destruct (lookup_lt_is_Some_2 all_sizes (S j - 1)) as [x ->]; [lia|].
    by eexists. }
  assert (∃ n, (if (Z.of_nat idx <? Z.of_nat (length all_sizes) - 1)%Z
                then index all_sizes (idx + 1) else Ok 0) = Ok n) as [n ->].
  { destruct (Z.ltb_spec (Z.of_nat idx) (Z.of_nat (length all_sizes) - 1));
      [|by eexists].
    unfold index.
    destruct (lookup_lt_is_Some_2 all_sizes (idx + 1)) as [x ->]; [lia|].
    by eexists. }
  done.
Qed.

Lemma detect_level_bold_title_witness :
  detect_level (styled "某某大学 张三" 18 true) [40; 18; 36] 1 = Ok main_title.
Proof.
  refine (detect_level_bold_title (styled "某某大学 张三" 18 true) [40; 18; 36] 1
            _ _ _ _ _).
  - repeat split; try (by vm_compute). apply Nat.leb_le. by vm_compute.
  - apply list_elem_of_here.
  - exists ∅. split; [reflexivity|]. intros v Hv. by rewrite lookup_empty in Hv.
  - cbn. lia.
Defined.

(** X7. [apply_run_format] returns exactly for a run that carries both
    [w:sz] and [w:szCs], and the run then has the template's fonts and the
    size in both; for every other run, one without run properties included,
    it raises [KeyError]. *)
Theorem apply_run_format_needs_sizes run size cf wf :
  (has_both_sizes run →
   ∃ run', apply_run_format run size cf wf = Ok run'
     ∧ font_attr run' "w:ascii" = Some wf
     ∧ font_attr run' "w:hAnsi" = Some wf
     ∧ font_attr run' "w:eastAsia" = Some cf
     ∧ font_attr run' "w:cs" = Some wf
     ∧ declared_size run' = size
     ∧ (rPr run' ≫= szCs) ≫= hps_val = Some size)
  ∧ (¬ has_both_sizes run → apply_run_format run size cf wf = Raise KeyError).
Proof.
  split.
  - intros (r0 & s0 & c0 & Hr & Hs & Hc). eexists. split.
    + apply apply_run_format_Ok. by exists r0, s0, c0.
    + unfold font_attr, declared_size.
      cbn [rPr rFonts sz szCs hps_val mbind option_bind default from_option id].
      by simplify_map_eq.
  - intros Hno. by apply apply_run_format_Raise.
Qed.

Lemma apply_run_format_needs_sizes_witness :
  (∃ run', apply_run_format
             {| rPr := Some {| rFonts := None;
                               sz := Some {| hps_val := Some 24 |};
                               szCs := Some {| hps_val := None |};
                               b := None |};
                r_text := u "正文" |} 21 (u "宋体") (u "Times New Roman")
           = Ok run'
           ∧ declared_size run' = 21)
  ∧ apply_run_format {| rPr := None; r_text := u "正文" |}
      21 (u "宋体") (u "Times New Roman") = Raise KeyError.
Proof.
  split.
  - destruct (proj1 (apply_run_format_needs_sizes
                       {| rPr := Some {| rFonts := None;
                                         sz := Some {| hps_val := Some 24 |};
                                         szCs := Some {| hps_val := None |};
                                         b := None |};
                          r_text := u "正文" |} 21 (u "宋体")
                       (u "Times New Roman")))
      as (run' & H & _ & _ & _ & _ & Hs & _).
    + by eexists _, _, _.
    + exists run'. exact (conj H Hs).
  - refine (proj2 (apply_run_format_needs_sizes
                     {| rPr := None; r_text := u "正文" |} 21 (u "宋体")
                     (u "Times New Roman")) _).
    by intros (? & ? & ? & ? & _).
Defined.

(** X8. [apply_para_format] leaves the runs alone and, in [w:spacing] and
    [w:ind], every attribute other than the ones it writes or removes; the
    line rule it writes is "auto". *)
Theorem apply_para_format_frame para level template para' :
  apply_para_format para level template = Ok para' →
  runs para' = runs para
  ∧ spacing_attr para' "w:lineRule" = Some (u "auto")
  ∧ (∀ name, name ∉ spacing_names →
       spacing_attr para' name = spacing_attr para name)
  ∧ (∀ name, name ∉ ind_names → ind_attr para' name = ind_attr para name).
Proof.
  intros (? & ? & ? & _ & _ & _ & ->)%apply_para_format_Ok.
  unfold spacing_attr, ind_attr, spacing_names, ind_names. cbv zeta.
  cbn [pPr runs spacing_el ind mbind option_bind].
  split; [done|]. split; [by simplify_map_eq|]. split.
  - intros name Hn. rewrite !not_elem_of_cons in Hn.
    destruct Hn as (? & ? & ? & ? & _).
    rewrite !lookup_insert_ne by done.
    by destruct (pPr para) as [[[sp|] i]|].
  - intros name Hn. rewrite !not_elem_of_cons in Hn.
    destruct Hn as (? & ? & _).
    destruct (_ && _).
    + rewrite lookup_insert_ne by done.
      by destruct (pPr para) as [[sp [i|]]|].
    + rewrite !lookup_delete_ne by done.
      by destruct (pPr para) as [[sp [i|]]|].
Qed.

Lemma apply_para_format_frame_witness :
  ∃ para',
    apply_para_format
      {| pPr := Some {| spacing_el := Some {[ "w:beforeLines"%string := u "50" ]};
                        ind := Some {[ "w:left"%string := u "420" ]} |};
         runs := runs (styled "1.1 背景" 24 false) |} heading2 GENERAL
    = Ok para'
    ∧ spacing_attr para' "w:beforeLines" = Some (u "50")
    ∧ ind_attr para' "w:left" = Some (u "420")
    ∧ runs para' = runs (styled "1.1 背景" 24 false).
Proof.
  destruct (apply_para_format_returns
              {| pPr := Some {| spacing_el := Some {[ "w:beforeLines"%string := u "50" ]};
                                ind := Some {[ "w:left"%string := u "420" ]} |};
                 runs := runs (styled "1.1 背景" 24 false) |} heading2 GENERAL
              360 120 240) as [para' H]; [done|done|by vm_compute|].
  exists para'. split; [exact H|].
  destruct (apply_para_format_frame _ _ _ _ H) as (Hr & _ & Hs & Hi).
  split; [|split; [|exact Hr]].
  - rewrite Hs; [reflexivity|]. unfold spacing_names.
    repeat (apply not_elem_of_cons; split; [done|]). apply not_elem_of_nil.
  - rewrite Hi; [reflexivity|]. unfold ind_names.
    repeat (apply not_elem_of_cons; split; [done|]). apply not_elem_of_nil.
Defined.

(** ** More on the configuration file *)



(** ** More on the converter *)

Lemma examined_skipped para : examined para = negb (skipped para).
Proof. rewrite skipped_examined. by destruct (examined para). Qed.

Lemma for_each_run_returns f rs :
  (∀ run, run ∈ rs → ∃ run', f run = Ok run') →
  ∃ rs', for_each_run f rs = Ok rs'.
Proof.
  induction rs as [|run rs IH]; intros H; [by eexists|].
  destruct (H run) as [run' Hr]; [by left|].
  destruct IH as [rs' Hrs]; [intros r Hin; apply H; by right|].
  cbn [for_each_run]. rewrite Hr, Hrs. by eexists.
Qed.


Lemma convert_loop_log template all_sizes paragraphs :
  ∀ i paragraphs' log count,
    convert_loop template all_sizes i paragraphs = Ok (paragraphs', log, count) →
    log = omap id (imap (fun j => expected_line all_sizes (i + j)) paragraphs)
    ∧ count = length (List.filter examined paragraphs).
Proof.
  induction paragraphs as [|para rest IH]; intros i ps' log count H.
  - by injection H as <- <- <-.
  - cbn [convert_loop] in H.
    destruct (convert_paragraph template all_sizes i para) as [r|e] eqn:Ep;
      [|done].
    cbn [mbind result_bind] in H.
    destruct (convert_loop template all_sizes (S i) rest)
      as [[[rest' log'] count']|e] eqn:El; [|done].
    cbn [mbind result_bind] in H.
    destruct (IH _ _ _ _ El) as [Hlog Hcount].
    assert (omap id (imap (fun j => expected_line all_sizes (i + j))
                          (para :: rest))
            = match expected_line all_sizes i para with
              | Some line => line :: log'
              | None => log'
              end) as ->.
    { rewrite Hlog. cbn [imap omap]. rewrite Nat.add_0_r.
      assert (imap ((fun j => expected_line all_sizes (i + j)) ∘ S) rest
              = imap (fun j => expected_line all_sizes (S i + j)) rest) as ->;
        [|by destruct (expected_line all_sizes i para)].
      apply imap_ext. intros j p _. cbn. by rewrite Nat.add_succ_r. }
    cbn [List.filter].
    unfold expected_line. rewrite examined_skipped.
    destruct r as [[l para']|].
    + pose proof Ep as (Hl & Hs & _ & Ht & _)%converted_paragraph.
      injection H as <- <- <-. rewrite Hs, Hl. cbn [negb length].
      unfold preview. rewrite Ht. by rewrite Hcount.
    + apply convert_paragraph_Ok in Ep as [[Hs _]|(_ & ? & ? & ? & [=] & _)].
      injection H as <- <- <-. by rewrite Hs.
Qed.

(** X11. The log of a conversion that returns has one line for every
    examined paragraph, in the order of the document, with the level found
    and the preview of the text, and ends with the number of these
    paragraphs. *)
Theorem convert_document_log doc template out log :
  convert_document doc template = Ok (out, log) → log = expected_log doc.
Proof.
  unfold convert_document, expected_log. intros H.
  destruct (convert_loop template (para_max_size <$> doc) 0 doc)
    as [[[ps' log'] count]|e] eqn:El; [|done].
  injection H as <- <-.
  by apply convert_loop_log in El as [-> ->].
Qed.

Lemma convert_document_log_witness :
  ∃ out log,
    convert_document mixed_doc GENERAL = Ok (out, log)
    ∧ log = [Processed main_title (u "论文格式研究");
             Processed body (u "本文研究 format ");
             Finished 2].
Proof.
  destruct (convert_document mixed_doc GENERAL) as [[out log]|e] eqn:E;
    [|vm_compute in E; discriminate].
  exists out, log. split; [reflexivity|].
  rewrite (convert_document_log mixed_doc GENERAL out log E).
  vm_compute. reflexivity.
Defined.

(** X12. In the output of a conversion a paragraph that is not examined is
    as it was; an examined one has in every run the template's fonts and,
    in both size elements, the size of its level, and its paragraph
    properties are those that [apply_para_format] writes for that level. *)
Theorem convert_document_output doc template out log :
  convert_document doc template = Ok (out, log) →
  length out = length doc
  ∧ ∀ i para para', doc !! i = Some para → out !! i = Some para' →
      if examined para
      then ∃ l, detect_level para (para_max_size <$> doc) i = Ok l
             ∧ Forall (formatted_run template l) (runs para')
             ∧ apply_para_format {| pPr := pPr para; runs := runs para' |}
                 l template = Ok para'
      else para' = para.
Proof.
  unfold convert_document. intros H.
  destruct (convert_loop template (para_max_size <$> doc) 0 doc)
    as [[[ps' log'] count]|e] eqn:El; [|done].
  injection H as <- _. apply convert_loop_paragraphs in El as [Hlen Hps].
  split; [done|]. intros i para para' Hi Hi'.
  destruct (Hps i para Hi) as (r & Hr & Hi''). cbn [Nat.add] in Hr.
  rewrite Hi' in Hi''. injection Hi'' as ->. rewrite examined_skipped.
  apply convert_paragraph_Ok in Hr
    as [[-> ->]|(-> & l & rs' & p' & -> & Hl & Hruns & Hf)]; [done|].
  cbn [negb]. exists l. split; [done|].
  assert (runs p' = rs') as Hrs.
  { apply apply_para_format_Ok in Hf as (? & ? & ? & _ & _ & _ & ->). done. }
  rewrite Hrs. split; [|done].
  clear Hf Hrs. induction Hruns as [|run run' rs rs'' Hf _ IH]; constructor;
    [|done].
  apply apply_run_format_Ok in Hf as (r0 & s0 & c0 & _ & _ & _ & ->).
  unfold formatted_run, font_attr, declared_size.
  cbn [rPr rFonts sz szCs hps_val mbind option_bind default from_option id].
  by simplify_map_eq.
Qed.

Lemma convert_document_output_witness :
  ∃ out log,
    convert_document mixed_doc GENERAL = Ok (out, log)
    ∧ out !! 2%nat = Some (plain "  ")
    ∧ ∃ title, out !! 0%nat = Some title
        ∧ Forall (formatted_run GENERAL main_title) (runs title).
Proof.
  destruct (convert_document mixed_doc GENERAL) as [[out log]|e] eqn:E;
    [|vm_compute in E; discriminate].
  exists out, log. split; [reflexivity|].
  destruct (convert_document_output mixed_doc GENERAL out log E) as [Hlen H].
  split.
  - destruct (lookup_lt_is_Some_2 out 2) as [p Hp];
      [rewrite Hlen; cbn; lia|].
    rewrite Hp. f_equal. exact (H 2%nat (plain "  ") p eq_refl Hp).
  - destruct (lookup_lt_is_Some_2 out 0) as [p Hp];
      [rewrite Hlen; cbn; lia|].
    exists p. split; [exact Hp|].
    destruct (H 0%nat _ p eq_refl Hp) as (l & Hl & Hf & _).
    vm_compute in Hl. by injection Hl as <-.
Defined.




